(** * TweetRepliesFetchService: a shallow embedding and its properties

    Source: src/components/tweet_replies_fetch_service.py

    The service performs one blocking GET request, parses the body as JSON,
    maps every element of the "tweets" array to a flat record kept in the
    instance buffer [self.replies], and optionally dumps the result to a file.

    Python values are modelled as follows.
    - [str] is a sequence of Unicode code points: [list N].
    - A parsed JSON document is the inductive type [json]; a [dict] keeps its
      insertion order (an association list), a float is carried by the text
      the json module writes for it.
    - Effects (the mutable buffer, the log, the clock, the file system) are
      threaded through a state-and-exception monad [Py]; mutations survive an
      exception, as they do in Python.
    - The network, the clock, the file system and the release of the
      requests library are collected in [Env].
    - What a call returns for the replies is a reference ([ListRef]): the
      service returns its own buffer, not a copy.

    The libraries the service calls are modelled next to it: [requests] as
    an oracle for the outcome of the request, [json] by an encoder and a
    decoder written after CPython's, [datetime] by a clock and its two
    formats.

    Layout: the model, then the definitions the statements need, then the
    lemmas and one theorem per property C1 to C10, then further properties
    of the service, X1 to X22. *)

From Stdlib Require Import ZArith NArith List Ascii String Bool Lia.
From Stdlib Require Import DecimalN DecimalFacts DecimalPos.
From stdpp Require Import base option list gmap.

Import ListNotations.
Local Open Scope Z_scope.

(** ** Strings *)

Abbreviation pystr := (list N).

(** A string literal of the source, as code points. *)
Definition str (s : string) : pystr :=
  map N_of_ascii (list_ascii_of_string s).

(** [needle in haystack] for two strings: substring search. *)
Fixpoint startswith (needle hay : pystr) : bool :=
  match needle, hay with
  | [], _ => true
  | _ :: _, [] => false
  | a :: needle', b :: hay' => N.eqb a b && startswith needle' hay'
  end.

Fixpoint str_contains (needle hay : pystr) : bool :=
  startswith needle hay ||
  match hay with
  | [] => false
  | _ :: hay' => str_contains needle hay'
  end.

(** ** JSON documents, as [json.loads] builds them *)

Unset Elimination Schemes.
Inductive json : Type :=
| JNull
| JBool (b : bool)
| JInt (z : Z)
| JFloat (repr : pystr)     (* float.__repr__, or Infinity, -Infinity, NaN *)
| JStr (s : pystr)
| JList (l : list json)
| JDict (d : list (pystr * json)).
Set Elimination Schemes.

(** [d.get(key)] on the association list behind a dict. *)
Fixpoint dict_lookup (key : pystr) (d : list (pystr * json)) : option json :=
  match d with
  | [] => None
  | (k, v) :: d' => if decide (k = key) then Some v else dict_lookup key d'
  end.

(** ** Exceptions *)

Inductive RequestErrorKind := ConnectionError | Timeout | OtherRequestError.

Inductive Exn :=
| RequestError (k : RequestErrorKind)   (* requests.RequestException family *)
| JSONDecodeError                       (* raised by response.json() *)
| KeyError (key : pystr)
| TypeError
| AttributeError
| OSError
| RecursionError.                       (* a document nested too deeply *)

(** requests 2.27.0 made the error of [response.json()] a subclass of
    [RequestException] (requests.exceptions.JSONDecodeError, derived from
    InvalidJSONError); before, it was the [ValueError] of the json module. *)
Inductive RequestsRelease := Before_2_27 | Since_2_27.

(** [isinstance(e, requests.RequestException)] *)
Definition is_RequestException (rel : RequestsRelease) (e : Exn) : bool :=
  match e with
  | RequestError _ => true
  | JSONDecodeError =>
      match rel with Since_2_27 => true | Before_2_27 => false end
  | _ => false
  end.

Inductive Result (A : Type) :=
| Return (a : A)
| Raise (e : Exn).
Arguments Return {A} a.
Arguments Raise {A} e.

(** ** Python primitives on JSON values *)

(** [key in container] for a string key.  A dict tests its keys, a list its
    elements (with [==]), a string its substrings; anything else is not
    iterable. *)
Definition is_str_equal (key : pystr) (v : json) : bool :=
  match v with
  | JStr s => bool_decide (s = key)
  | _ => false
  end.

Definition py_contains (key : pystr) (container : json) : Result bool :=
  match container with
  | JDict d => Return (bool_decide (is_Some (dict_lookup key d)))
  | JList l => Return (existsb (is_str_equal key) l)
  | JStr s => Return (str_contains key s)
  | _ => Raise TypeError
  end.

(** [container[key]] for a string key. *)
Definition py_getitem (container : json) (key : pystr) : Result json :=
  match container with
  | JDict d =>
      match dict_lookup key d with
      | Some v => Return v
      | None => Raise (KeyError key)
      end
  | _ => Raise TypeError
  end.

(** [obj.get(key, default)]: only a dict has the method. *)
Definition py_get (obj : json) (key : pystr) (default : json) : Result json :=
  match obj with
  | JDict d =>
      match dict_lookup key d with
      | Some v => Return v
      | None => Return default
      end
  | _ => Raise AttributeError
  end.

(** [isinstance(v, list)] *)
Definition isinstance_list (v : json) : bool :=
  match v with
  | JList _ => true
  | _ => false
  end.

(** ** The records built by the service *)

Record Metrics := {
  likes : json;
  retweets : json;
  replies : json
}.

Record Reply := {
  reply_id : json;
  author_id : json;
  author_username : json;
  text : json;
  created_at : json;
  metrics : Metrics
}.

(** What a call hands back for the replies: either the instance buffer itself
    ([return self.replies], an alias) or a new list ([return []]). *)
Inductive ListRef :=
| SelfReplies
| Fresh (l : list Reply).

Record FetchResult := {
  tweet_id : pystr;
  total_replies_fetched : nat;
  fetch_timestamp : pystr;
  fetched_replies : ListRef
}.

(** ** The world *)

Record Request := {
  method : pystr;
  url : option pystr;
  req_headers : list (pystr * option pystr);
  params : list (pystr * pystr);
  timeout : Z
}.

(** A response: [body] is what [response.json()] parses out of [resp_text],
    [None] when the text is not JSON. *)
Record Response := {
  status_code : Z;
  resp_text : pystr;
  body : option json
}.

Inductive Outcome :=
| Respond (r : Response)
| RequestFails (k : RequestErrorKind).

Record datetime := {
  year : N; month : N; day : N;
  hour : N; minute : N; second : N;
  microsecond : N
}.

Inductive LogRecord :=
| InfoStart (tweet : pystr)
| InfoStatus (code : Z)
| InfoContent (content : pystr)
| InfoFetched (count : nat) (tweet : pystr)
| InfoNoReplies (tweet : pystr)
| ErrorRequestFailed (tweet : pystr) (err : Exn)
| InfoSaved (filename : pystr).

(** How the writing of a text to an open file ends: the whole text reaches
    the file, or an exception is raised once a part of it has (OSError when
    the disk is full, RecursionError when the encoder meets a document nested
    too deeply). *)
Inductive WriteOutcome :=
| WriteCompletes
| WriteFails (e : Exn) (reached : nat).

(** What the service cannot control. *)
Record Env := {
  release : RequestsRelease;
  network : Request -> Outcome;
  clock : nat -> datetime;       (* successive readings of datetime.now() *)
  can_open : pystr -> bool;      (* does open(path, "w") succeed *)
  write_text : pystr -> pystr -> WriteOutcome
                                 (* json.dump of a text to the open path *)
}.

(** The instance ([self]) and the mutable surroundings. *)
Record Service := {
  api_url : option pystr;
  headers : list (pystr * option pystr);
  self_replies : list Reply
}.

Record World := {
  service : Service;
  log : list LogRecord;
  ticks : nat;
  files : gmap pystr pystr
}.

(** [TweetRepliesFetchService.__init__] *)
Definition init (getenv : pystr -> option pystr) : Service :=
  {| api_url := getenv (str "TWITTER_API_URL");
     headers := [(str "X-API-Key", getenv (str "TWITTER_API_KEY"))];
     self_replies := [] |}.

(** ** The monad: state that survives exceptions *)

Definition Py (A : Type) : Type := World -> Result A * World.

Definition ret {A} (a : A) : Py A := fun w => (Return a, w).

Definition bind {A B} (m : Py A) (f : A -> Py B) : Py B :=
  fun w =>
    match m w with
    | (Return a, w') => f a w'
    | (Raise e, w') => (Raise e, w')
    end.

Definition lift {A} (r : Result A) : Py A := fun w => (r, w).

Declare Scope py_scope.
Delimit Scope py_scope with py.
Notation "x <- m ;; k" := (bind m (fun x => k))
  (at level 100, m at next level, right associativity) : py_scope.
Notation "m ;; k" := (bind m (fun _ => k))
  (at level 100, right associativity) : py_scope.

(** [try: body  except <class matching catches> as e: handler e] *)
Definition try_except {A} (body : Py A) (catches : Exn -> bool)
    (handler : Exn -> Py A) : Py A :=
  fun w =>
    match body w with
    | (Return a, w') => (Return a, w')
    | (Raise e, w') => if catches e then handler e w' else (Raise e, w')
    end.

(** [for x in l: step x] *)
Fixpoint for_each {A} (l : list A) (step : A -> Py unit) : Py unit :=
  match l with
  | [] => ret tt
  | x :: l' => bind (step x) (fun _ => for_each l' step)
  end.

(** ** Effects *)

Definition set_replies (rs : list Reply) (w : World) : World :=
  {| service := {| api_url := api_url (service w);
                   headers := headers (service w);
                   self_replies := rs |};
     log := log w; ticks := ticks w; files := files w |}.

Definition logging (r : LogRecord) : Py unit :=
  fun w => (Return tt,
            {| service := service w; log := log w ++ [r];
               ticks := ticks w; files := files w |}).

(** [self.replies.clear()] *)
Definition replies_clear : Py unit :=
  fun w => (Return tt, set_replies [] w).

(** [self.replies.append(r)] *)
Definition replies_append (r : Reply) : Py unit :=
  fun w => (Return tt, set_replies (self_replies (service w) ++ [r]) w).

(** [len(self.replies)] *)
Definition replies_len : Py nat :=
  fun w => (Return (length (self_replies (service w))), w).

(** The world once the clock has been read. *)
Definition tick (w : World) : World :=
  {| service := service w; log := log w;
     ticks := S (ticks w); files := files w |}.

(** [datetime.now()] *)
Definition datetime_now (env : Env) : Py datetime :=
  fun w => (Return (clock env (ticks w)), tick w).

(** The list a reference denotes in a given world. *)
Definition deref (w : World) (r : ListRef) : list Reply :=
  match r with
  | SelfReplies => self_replies (service w)
  | Fresh l => l
  end.

(** ** get_tweet_replies *)

(** The request of lines 35-41. *)
Definition fetch_request (s : Service) (tweet : pystr) : Request :=
  {| method := str "GET";
     url := api_url s;
     req_headers := headers s;
     params := [(str "tweetId", tweet)];
     timeout := 10 |}.

Definition requests_request (env : Env) (tweet : pystr) : Py Response :=
  fun w =>
    match network env (fetch_request (service w) tweet) with
    | Respond r => (Return r, w)
    | RequestFails k => (Raise (RequestError k), w)
    end.

(** [response.json()] *)
Definition response_json (r : Response) : Result json :=
  match body r with
  | Some v => Return v
  | None => Raise JSONDecodeError
  end.

Definition rbind {A B} (r : Result A) (f : A -> Result B) : Result B :=
  match r with
  | Return a => f a
  | Raise e => Raise e
  end.

(** The dict display of lines 49-60; the items are evaluated in order. *)
Definition reply_info (reply : json) : Result Reply :=
  rbind (py_getitem reply (str "id")) (fun v_id =>
  rbind (py_get reply (str "author_id") JNull) (fun v_author_id =>
  rbind (py_get reply (str "author") (JDict [])) (fun v_author =>
  rbind (py_get v_author (str "username") JNull) (fun v_username =>
  rbind (py_getitem reply (str "text")) (fun v_text =>
  rbind (py_get reply (str "created_at") JNull) (fun v_created_at =>
  rbind (py_get reply (str "likes_count") (JInt 0)) (fun v_likes =>
  rbind (py_get reply (str "retweets_count") (JInt 0)) (fun v_retweets =>
  rbind (py_get reply (str "replies_count") (JInt 0)) (fun v_replies =>
  Return {| reply_id := v_id;
            author_id := v_author_id;
            author_username := v_username;
            text := v_text;
            created_at := v_created_at;
            metrics := {| likes := v_likes;
                          retweets := v_retweets;
                          replies := v_replies |} |}))))))))).

(** ["tweets" in replies_data and isinstance(replies_data["tweets"], list)] *)
Definition has_tweets_list (replies_data : json) : Result bool :=
  rbind (py_contains (str "tweets") replies_data) (fun present =>
  if present
  then rbind (py_getitem replies_data (str "tweets")) (fun tw =>
       Return (isinstance_list tw))
  else Return false).

(** The iteration of line 48 over a value known to be a list. *)
Definition iter_list (v : json) : list json :=
  match v with
  | JList l => l
  | _ => []
  end.

Local Open Scope py_scope.

(** The body of the [try] block, lines 35-65. *)
Definition fetch_body (env : Env) (tweet : pystr) : Py (option ListRef) :=
  response <- requests_request env tweet ;;
  logging (InfoStatus (status_code response)) ;;
  logging (InfoContent (resp_text response)) ;;
  replies_data <- lift (response_json response) ;;
  cond <- lift (has_tweets_list replies_data) ;;
  (if cond : bool
   then
     tweets <- lift (py_getitem replies_data (str "tweets")) ;;
     for_each (iter_list tweets) (fun reply =>
       info <- lift (reply_info reply) ;;
       replies_append info) ;;
     n <- replies_len ;;
     logging (InfoFetched n tweet)
   else
     logging (InfoNoReplies tweet)) ;;
  ret None.

Definition get_tweet_replies (env : Env) (tweet : pystr) (max_replies : Z)
    : Py ListRef :=
  logging (InfoStart tweet) ;;
  replies_clear ;;
  early <- try_except (fetch_body env tweet)
             (is_RequestException (release env))
             (fun req_err =>
                logging (ErrorRequestFailed tweet req_err) ;;
                ret (Some (Fresh []))) ;;
  match early with
  | Some r => ret r
  | None => ret SelfReplies
  end.

(** ** get_replies_with_metadata *)

(** Decimal digits, most significant first. *)
Fixpoint uint_digits (u : Decimal.uint) : pystr :=
  match u with
  | Decimal.Nil => []
  | Decimal.D0 u' => 48%N :: uint_digits u'
  | Decimal.D1 u' => 49%N :: uint_digits u'
  | Decimal.D2 u' => 50%N :: uint_digits u'
  | Decimal.D3 u' => 51%N :: uint_digits u'
  | Decimal.D4 u' => 52%N :: uint_digits u'
  | Decimal.D5 u' => 53%N :: uint_digits u'
  | Decimal.D6 u' => 54%N :: uint_digits u'
  | Decimal.D7 u' => 55%N :: uint_digits u'
  | Decimal.D8 u' => 56%N :: uint_digits u'
  | Decimal.D9 u' => 57%N :: uint_digits u'
  end.

(** [str(n)] for a natural number. *)
Definition N_repr (n : N) : pystr := uint_digits (N.to_uint n).

(** [s.zfill(width)] on a digit string. *)
Definition zfill (width : nat) (s : pystr) : pystr :=
  repeat 48%N (width - length s) ++ s.

(** [d.isoformat()]: the fraction is printed only when it is not zero. *)
Definition isoformat (d : datetime) : pystr :=
  zfill 4 (N_repr (year d)) ++ str "-" ++ zfill 2 (N_repr (month d)) ++
  str "-" ++ zfill 2 (N_repr (day d)) ++ str "T" ++
  zfill 2 (N_repr (hour d)) ++ str ":" ++ zfill 2 (N_repr (minute d)) ++
  str ":" ++ zfill 2 (N_repr (second d)) ++
  (if N.eqb (microsecond d) 0 then []
   else str "." ++ zfill 6 (N_repr (microsecond d))).

(** [d.strftime('%Y%m%d_%H%M%S')], for the four-digit years a clock gives. *)
Definition strftime (d : datetime) : pystr :=
  zfill 4 (N_repr (year d)) ++ zfill 2 (N_repr (month d)) ++
  zfill 2 (N_repr (day d)) ++ str "_" ++
  zfill 2 (N_repr (hour d)) ++ zfill 2 (N_repr (minute d)) ++
  zfill 2 (N_repr (second d)).

(** [len(replies)] on whatever list the reference denotes now. *)
Definition py_len (r : ListRef) : Py nat :=
  fun w => (Return (length (deref w r)), w).

Definition get_replies_with_metadata (env : Env) (tweet : pystr)
    (max_replies : Z) : Py FetchResult :=
  replies <- get_tweet_replies env tweet max_replies ;;
  n <- py_len replies ;;
  now <- datetime_now env ;;
  ret {| tweet_id := tweet;
         total_replies_fetched := n;
         fetch_timestamp := isoformat now;
         fetched_replies := replies |}.

(** ** The json module *)

(** [json.dump(obj, f, indent=4)] and [json.load], after CPython's encoder
    and scanner, with the defaults the service leaves in place
    ([ensure_ascii], [allow_nan], strict strings).  Characters are code
    points: 34 is the double quote, 92 the backslash, 117 the letter u,
    44 the comma, 58 the colon, 91 and 93 the brackets, 123 and 125 the
    braces, 10 the newline, 32 the blank. *)

Local Open Scope N_scope.

(** *** Encoding: [json.dump(obj, f, indent=4)] *)

(** [int.__repr__] *)
Definition Z_repr (z : Z) : pystr :=
  match z with
  | Z0 => [48]
  | Zpos p => uint_digits (Pos.to_uint p)
  | Zneg p => 45 :: uint_digits (Pos.to_uint p)
  end.

Definition hex_digit (n : N) : N :=
  if n <? 10 then 48 + n else 87 + n.

(** ['{0:04x}'.format(n)] *)
Definition hex4 (n : N) : pystr :=
  [hex_digit (n / 4096 mod 16); hex_digit (n / 256 mod 16);
   hex_digit (n / 16 mod 16); hex_digit (n mod 16)].

(** One character under [ensure_ascii]: the short escapes, the printable
    ASCII characters as they are, everything else as \uXXXX, with a surrogate
    pair above the basic plane. *)
Definition escape_char (c : N) : pystr :=
  if c =? 34 then [92; 34]
  else if c =? 92 then [92; 92]
  else if c =? 10 then [92; 110]
  else if c =? 13 then [92; 114]
  else if c =? 9 then [92; 116]
  else if c =? 12 then [92; 102]
  else if c =? 8 then [92; 98]
  else if (32 <=? c) && (c <=? 126) then [c]
  else if c <? 65536 then 92 :: 117 :: hex4 c
  else 92 :: 117 :: hex4 (55296 + (c - 65536) / 1024) ++
       92 :: 117 :: hex4 (56320 + (c - 65536) mod 1024).

Fixpoint escape (s : pystr) : pystr :=
  match s with
  | [] => []
  | c :: s' => escape_char c ++ escape s'
  end.

(** [encode_basestring_ascii] *)
Definition encode_str (s : pystr) : pystr := 34 :: escape s ++ [34].

(** ['\n' + ' ' * (4 * level)] *)
Definition newline_indent (level : nat) : pystr :=
  10 :: repeat 32 (4 * level).

Section Join.
Context {A : Type}.
Variable item : A -> pystr.
Variable sep : pystr.

(** [sep.join(item(x) for x in l)] *)
Fixpoint join_map (l : list A) : pystr :=
  match l with
  | [] => []
  | x :: l' =>
      match l' with
      | [] => item x
      | _ :: _ => item x ++ sep ++ join_map l'
      end
  end.
End Join.

(** [_iterencode] at indentation [level]: an empty list or dict on one
    line, otherwise one item per line, one level deeper, separated by a
    comma. *)
Fixpoint json_encode (level : nat) (v : json) : pystr :=
  match v with
  | JNull => str "null"
  | JBool true => str "true"
  | JBool false => str "false"
  | JInt z => Z_repr z
  | JFloat r => r
  | JStr s => encode_str s
  | JList [] => str "[]"
  | JList l =>
      [91] ++ newline_indent (S level) ++
      join_map (json_encode (S level)) (44 :: newline_indent (S level)) l ++
      newline_indent level ++ [93]
  | JDict [] => str "{}"
  | JDict d =>
      [123] ++ newline_indent (S level) ++
      join_map (fun kv => match kv with
                          | (k, x) => encode_str k ++ [58; 32] ++
                                      json_encode (S level) x
                          end)
               (44 :: newline_indent (S level)) d ++
      newline_indent level ++ [125]
  end.

Definition json_dumps (v : json) : pystr := json_encode 0 v.

(** *** Decoding: [json.load] *)

Definition is_ws (c : N) : bool :=
  (c =? 32) || (c =? 9) || (c =? 10) || (c =? 13).

Fixpoint skip_ws (s : pystr) : pystr :=
  match s with
  | [] => []
  | c :: s' => if is_ws c then skip_ws s' else s
  end.

Definition hex_value (c : N) : option N :=
  if (48 <=? c) && (c <=? 57) then Some (c - 48)
  else if (97 <=? c) && (c <=? 102) then Some (c - 87)
  else if (65 <=? c) && (c <=? 70) then Some (c - 55)
  else None.

Definition parse_hex4 (s : pystr) : option (N * pystr) :=
  match s with
  | a :: b :: c :: d :: rest =>
      match hex_value a, hex_value b, hex_value c, hex_value d with
      | Some x, Some y, Some z, Some t =>
          Some (x * 4096 + y * 256 + z * 16 + t, rest)
      | _, _, _, _ => None
      end
  | _ => None
  end.

Definition unescape (e : N) : option N :=
  if e =? 34 then Some 34
  else if e =? 92 then Some 92
  else if e =? 47 then Some 47
  else if e =? 98 then Some 8
  else if e =? 102 then Some 12
  else if e =? 110 then Some 10
  else if e =? 114 then Some 13
  else if e =? 116 then Some 9
  else None.

Definition is_high (u : N) : bool := (55296 <=? u) && (u <=? 56319).
Definition is_low (u : N) : bool := (56320 <=? u) && (u <=? 57343).

Definition prepend (c : N) (r : option (pystr * pystr))
    : option (pystr * pystr) :=
  match r with
  | Some (s, rest) => Some (c :: s, rest)
  | None => None
  end.

(** [scanstring], strict: the text after the opening quote, up to and
    including the closing one. *)
Fixpoint scanstring (fuel : nat) (s : pystr) : option (pystr * pystr) :=
  match fuel with
  | O => None
  | S f =>
      match s with
      | [] => None
      | c :: s1 =>
          if c =? 34 then Some ([], s1)
          else if c =? 92 then
            match s1 with
            | [] => None
            | e :: s2 =>
                if e =? 117 then
                  match parse_hex4 s2 with
                  | None => None
                  | Some (u, s3) =>
                      if is_high u then
                        match s3 with
                        | b :: x :: s4 =>
                            if (b =? 92) && (x =? 117) then
                              match parse_hex4 s4 with
                              | None => None
                              | Some (u2, s5) =>
                                  if is_low u2
                                  then prepend (65536 + (u - 55296) * 1024
                                                + (u2 - 56320))
                                         (scanstring f s5)
                                  else prepend u (scanstring f s3)
                              end
                            else prepend u (scanstring f s3)
                        | _ => prepend u (scanstring f s3)
                        end
                      else prepend u (scanstring f s3)
                  end
                else
                  match unescape e with
                  | Some c' => prepend c' (scanstring f s2)
                  | None => None
                  end
            end
          else if c <? 32 then None
          else prepend c (scanstring f s1)
      end
  end.

Definition is_digit (c : N) : bool := (48 <=? c) && (c <=? 57).

Definition is_number_char (c : N) : bool :=
  is_digit c || (c =? 45) || (c =? 43) || (c =? 46) || (c =? 101) || (c =? 69).

Section Span.
Variable p : N -> bool.
Fixpoint span (s : pystr) : pystr * pystr :=
  match s with
  | [] => ([], [])
  | c :: s' =>
      if p c then let (a, b) := span s' in (c :: a, b) else ([], s)
  end.
End Span.

Definition digit_uint (c : N) (u : Decimal.uint) : Decimal.uint :=
  if c =? 48 then Decimal.D0 u else if c =? 49 then Decimal.D1 u
  else if c =? 50 then Decimal.D2 u else if c =? 51 then Decimal.D3 u
  else if c =? 52 then Decimal.D4 u else if c =? 53 then Decimal.D5 u
  else if c =? 54 then Decimal.D6 u else if c =? 55 then Decimal.D7 u
  else if c =? 56 then Decimal.D8 u else Decimal.D9 u.

Fixpoint digits_uint (ds : pystr) : Decimal.uint :=
  match ds with
  | [] => Decimal.Nil
  | c :: ds' => digit_uint c (digits_uint ds')
  end.

(** The integer part of a JSON number: [0|[1-9][0-9]*]. *)
Definition int_part_ok (ds : pystr) : bool :=
  match ds with
  | [] => false
  | c :: ds' =>
      if c =? 48 then match ds' with [] => true | _ => false end
      else is_digit c && forallb is_digit ds'
  end.

(** [[eE][-+]?[0-9]+] to the end of the token. *)
Definition exponent_ok (s : pystr) : bool :=
  match s with
  | [] => false
  | e :: s' =>
      ((e =? 101) || (e =? 69)) &&
      let ds := match s' with
                | [] => []
                | c :: t => if (c =? 43) || (c =? 45) then t else s'
                end in
      match ds with
      | [] => false
      | _ => forallb is_digit ds
      end
  end.

(** A fraction, an exponent, or both, to the end of the token. *)
Definition float_tail_ok (s : pystr) : bool :=
  match s with
  | [] => false
  | c :: s' =>
      if c =? 46 then
        let (fd, s'') := span is_digit s' in
        match fd with
        | [] => false
        | _ => match s'' with [] => true | _ => exponent_ok s'' end
        end
      else exponent_ok s
  end.

(** A maximal run of number characters, read as the scanner's NUMBER_RE
    reads it: no character of such a run can follow a number, so the scanner
    succeeds exactly when the whole run is a number.  A literal with a
    fraction or an exponent is a float; it is kept as its text, which is the
    [repr] of the float again whenever the encoder wrote it. *)
Definition classify_number (tok : pystr) : option json :=
  let (neg, digits) := match tok with
                       | c :: t => if c =? 45 then (true, t) else (false, tok)
                       | [] => (false, [])
                       end in
  let (ip, tail) := span is_digit digits in
  if int_part_ok ip then
    match tail with
    | [] =>
        let n := Z.of_N (N.of_uint (digits_uint ip)) in
        Some (JInt (if neg then Z.opp n else n))
    | _ => if float_tail_ok tail then Some (JFloat tok) else None
    end
  else None.

(** What [scan_once] tries after strings, objects and arrays: the three
    names, a number, the three float constants. *)
Definition parse_atom (s : pystr) : option (json * pystr) :=
  if startswith (str "null") s then Some (JNull, drop 4 s)
  else if startswith (str "true") s then Some (JBool true, drop 4 s)
  else if startswith (str "false") s then Some (JBool false, drop 5 s)
  else
    let (tok, rest) := span is_number_char s in
    match classify_number tok with
    | Some v => Some (v, rest)
    | None =>
        if startswith (str "NaN") s
        then Some (JFloat (str "NaN"), drop 3 s)
        else if startswith (str "Infinity") s
        then Some (JFloat (str "Infinity"), drop 8 s)
        else if startswith (str "-Infinity") s
        then Some (JFloat (str "-Infinity"), drop 9 s)
        else None
    end.

(** [dict[k] = v] on the association list: a key seen again keeps its place
    and takes the new value. *)
Fixpoint dict_set (k : pystr) (v : json) (d : list (pystr * json))
    : list (pystr * json) :=
  match d with
  | [] => [(k, v)]
  | (k', v') :: d' =>
      if decide (k' = k) then (k', v) :: d' else (k', v') :: dict_set k v d'
  end.

Definition dict_of_pairs (pairs : list (pystr * json)) : list (pystr * json) :=
  fold_left (fun d kv => dict_set (fst kv) (snd kv) d) pairs [].

(** [scan_once], with the array and object loops.  [fuel] bounds the nesting
    and the number of items; [json_loads] gives enough of it. *)
Fixpoint parse_value (fuel : nat) (s : pystr) : option (json * pystr) :=
  match fuel with
  | O => None
  | S f =>
      match s with
      | [] => None
      | c :: s1 =>
          if c =? 34 then
            match scanstring (length s1) s1 with
            | Some (x, rest) => Some (JStr x, rest)
            | None => None
            end
          else if c =? 123 then
            match skip_ws s1 with
            | [] => None
            | c2 :: s2 =>
                if c2 =? 125 then Some (JDict [], s2)
                else match parse_members f (c2 :: s2) with
                     | Some (pairs, rest) =>
                         Some (JDict (dict_of_pairs pairs), rest)
                     | None => None
                     end
            end
          else if c =? 91 then
            match skip_ws s1 with
            | [] => None
            | c2 :: s2 =>
                if c2 =? 93 then Some (JList [], s2)
                else match parse_elements f (c2 :: s2) with
                     | Some (l, rest) => Some (JList l, rest)
                     | None => None
                     end
            end
          else parse_atom s
      end
  end
with parse_elements (fuel : nat) (s : pystr) : option (list json * pystr) :=
  match fuel with
  | O => None
  | S f =>
      match parse_value f s with
      | None => None
      | Some (v, r) =>
          match skip_ws r with
          | [] => None
          | c :: r' =>
              if c =? 44 then
                match parse_elements f (skip_ws r') with
                | Some (vs, rest) => Some (v :: vs, rest)
                | None => None
                end
              else if c =? 93 then Some ([v], r')
              else None
          end
      end
  end
with parse_members (fuel : nat) (s : pystr)
    : option (list (pystr * json) * pystr) :=
  match fuel with
  | O => None
  | S f =>
      match s with
      | [] => None
      | q :: s1 =>
          if q =? 34 then
            match scanstring (length s1) s1 with
            | None => None
            | Some (k, r) =>
                match skip_ws r with
                | [] => None
                | c :: r1 =>
                    if c =? 58 then
                      match parse_value f (skip_ws r1) with
                      | None => None
                      | Some (v, r2) =>
                          match skip_ws r2 with
                          | [] => None
                          | c' :: r3 =>
                              if c' =? 44 then
                                match parse_members f (skip_ws r3) with
                                | Some (ms, rest) => Some ((k, v) :: ms, rest)
                                | None => None
                                end
                              else if c' =? 125 then Some ([(k, v)], r3)
                              else None
                          end
                      end
                    else None
                end
            end
          else None
      end
  end.

(** [json.loads]: one value, white space around it, nothing else. *)
Definition json_loads (s : pystr) : option json :=
  match parse_value (2 * length s + 2) (skip_ws s) with
  | Some (v, rest) =>
      match skip_ws rest with
      | [] => Some v
      | _ => None
      end
  | None => None
  end.

(** *** Documents that survive the round trip *)

(** A string whose code points are valid and in which no lone high surrogate
    is followed by a lone low surrogate (the decoder would join them). *)
Fixpoint str_ok (s : pystr) : bool :=
  match s with
  | [] => true
  | c :: s' =>
      (c <? 1114112) &&
      match s' with
      | [] => true
      | c' :: _ => negb (is_high c && is_low c')
      end && str_ok s'
  end.

(** The text of a float: a number token with a fraction or an exponent, or
    an infinity.  (NaN is left out: it is not equal to itself.) *)
Definition float_ok (r : pystr) : bool :=
  (forallb is_number_char r &&
   match classify_number r with
   | Some (JFloat _) => true
   | _ => false
   end)
  || bool_decide (r = str "Infinity") || bool_decide (r = str "-Infinity").

Fixpoint json_ok (v : json) : bool :=
  match v with
  | JNull | JBool _ | JInt _ => true
  | JFloat r => float_ok r
  | JStr s => str_ok s
  | JList l => forallb json_ok l
  | JDict d =>
      forallb (fun kv => match kv with
                         | (k, x) => str_ok k && json_ok x
                         end) d
      && bool_decide (NoDup (map fst d))
  end.

Local Close Scope N_scope.

(** ** save_replies_to_file *)

(** The dict built at lines 49-60, as the json module sees it. *)
Definition json_of_reply (r : Reply) : json :=
  JDict [(str "reply_id", reply_id r);
         (str "author_id", author_id r);
         (str "author_username", author_username r);
         (str "text", text r);
         (str "created_at", created_at r);
         (str "metrics",
          JDict [(str "likes", likes (metrics r));
                 (str "retweets", retweets (metrics r));
                 (str "replies", replies (metrics r))])].

(** The dict of lines 78-83; the list under "replies" is whatever the
    reference denotes when the dict is looked at. *)
Definition json_of_result (w : World) (res : FetchResult) : json :=
  JDict [(str "tweet_id", JStr (tweet_id res));
         (str "total_replies_fetched",
          JInt (Z.of_nat (total_replies_fetched res)));
         (str "fetch_timestamp", JStr (fetch_timestamp res));
         (str "replies",
          JList (map json_of_reply (deref w (fetched_replies res))))].

(** The f-string of line 90. *)
Definition generated_filename (tweet : pystr) (now : datetime) : pystr :=
  str "replies_to_" ++ tweet ++ str "_" ++ strftime now ++ str ".json".

(** Lines 94-95.  [open(filename, "w")] may fail, and then nothing is
    written.  Once it has succeeded the old contents are gone, and [json.dump]
    may still raise before the whole text is written: the [with] block closes
    the file, which keeps the part of the text that had reached it. *)
Definition dump_to_file (env : Env) (filename : pystr)
    (final_output : FetchResult) : Py unit :=
  fun w =>
    if can_open env filename
    then
      let text := json_dumps (json_of_result w final_output) in
      match write_text env filename text with
      | WriteCompletes =>
          (Return tt,
           {| service := service w; log := log w; ticks := ticks w;
              files := <[filename := text]> (files w) |})
      | WriteFails e reached =>
          (Raise e,
           {| service := service w; log := log w; ticks := ticks w;
              files := <[filename := take reached text]> (files w) |})
      end
    else (Raise OSError, w).

Definition save_replies_to_file (env : Env) (tweet : pystr)
    (filename : option pystr) (max_replies : Z) : Py pystr :=
  filename <- match filename with
              | None =>
                  now <- datetime_now env ;;
                  ret (generated_filename tweet now)
              | Some name => ret name
              end ;;
  final_output <- get_replies_with_metadata env tweet max_replies ;;
  dump_to_file env filename final_output ;;
  logging (InfoSaved filename) ;;
  ret filename.

(** * Definitions used by the properties *)

(** ** The mapping loop as a pure function *)

(** The records appended by the loop of lines 48-61, and the exception that
    stopped it, if any. *)
Fixpoint map_replies (tweets : list json) : list Reply * option Exn :=
  match tweets with
  | [] => ([], None)
  | t :: ts =>
      match reply_info t with
      | Return r => let (rs, e) := map_replies ts in (r :: rs, e)
      | Raise e => ([], Some e)
      end
  end.

(** An object the mapping accepts: a dict with [id] and [text] whose
    [author], when present, is a dict too. *)
Definition has_field (key : pystr) (v : json) : bool :=
  match v with
  | JDict d => bool_decide (is_Some (dict_lookup key d))
  | _ => false
  end.

Definition has_required_fields (v : json) : bool :=
  has_field (str "id") v && has_field (str "text") v.

Definition author_ok (v : json) : bool :=
  match v with
  | JDict d =>
      match dict_lookup (str "author") d with
      | Some (JDict _) | None => true
      | Some _ => false
      end
  | _ => false
  end.

Definition well_formed (v : json) : bool :=
  has_required_fields v && author_ok v.

(** The environment answers the request of this call with a body that parses
    to [data]. *)
Definition responds_with (env : Env) (w : World) (tweet : pystr)
    (data : json) : Prop :=
  exists r, network env (fetch_request (service w) tweet) = Respond r /\
            body r = Some data.

(** The answer is an object whose "tweets" entry is the array [tweets]. *)
Definition responds_with_tweets (env : Env) (w : World) (tweet : pystr)
    (tweets : list json) : Prop :=
  exists d, responds_with env w tweet (JDict d) /\
            dict_lookup (str "tweets") d = Some (JList tweets).

Definition buffer (w : World) : list Reply := self_replies (service w).

(** The condition of line 47 is false without raising: [data] supports the
    membership test and does not offer a "tweets" array. *)
Definition lacks_tweets_list (data : json) : bool :=
  match data with
  | JDict d =>
      match dict_lookup (str "tweets") d with
      | Some (JList _) => false
      | _ => true
      end
  | JList l => negb (existsb (is_str_equal (str "tweets")) l)
  | JStr s => negb (str_contains (str "tweets") s)
  | _ => false
  end.

(** A record whose fields are all well-formed documents. *)
Definition reply_ok (r : Reply) : Prop := json_ok (json_of_reply r) = true.

(** The environment only answers this call with well-formed documents. *)
Definition answers_ok (env : Env) (tweet : pystr) (w : World) : Prop :=
  forall r data,
    network env (fetch_request (service w) tweet) = Respond r ->
    body r = Some data ->
    json_ok data = true.

Local Open Scope N_scope.

(** The text does not start with the escape of a low surrogate. *)
Definition no_low_escape (t : pystr) : Prop :=
  match t with
  | b :: x :: s4 =>
      (b =? 92) && (x =? 117) = true ->
      exists u r, parse_hex4 s4 = Some (u, r) /\ is_low u = false
  | _ => True
  end.

(** What may follow a value: the end, or a character no number contains. *)
Definition follow_ok (rest : pystr) : bool :=
  match rest with
  | [] => true
  | c :: _ => negb (is_number_char c)
  end.

(** The first character of an encoding: never a blank, never a closing
    bracket. *)
Definition opens_value (c : N) : Prop :=
  is_ws c = false /\ (c =? 93) = false /\ (c =? 125) = false.

(** One member of an object: the key, a colon and a blank, the value. *)
Definition member_text (level : nat) (kv : pystr * json) : pystr :=
  match kv with
  | (k, x) => encode_str k ++ [58; 32] ++ json_encode (S level) x
  end.

(** The statement proved by induction: a value is read back from its
    encoding, whatever follows it, with enough fuel. *)
Definition reads_back (v : json) : Prop :=
  json_ok v = true ->
  forall level rest fuel,
    follow_ok rest = true ->
    (2 * length (json_encode level v ++ rest) + 1 <= fuel)%nat ->
    parse_value fuel (json_encode level v ++ rest) = Some (v, rest).

Local Close Scope N_scope.

(** ** Sample inputs *)

Definition getenv0 (name : pystr) : option pystr :=
  if decide (name = str "TWITTER_API_URL") then Some (str "https://api.example/replies")
  else if decide (name = str "TWITTER_API_KEY") then Some (str "k")
  else None.

Definition world0 : World :=
  {| service := init getenv0; log := []; ticks := 0%nat; files := ∅ |}.

Definition noon : datetime :=
  {| year := 2025; month := 3; day := 21; hour := 12; minute := 0;
     second := 5; microsecond := 0 |}.

Definition env_of (rel : RequestsRelease) (o : Outcome) : Env :=
  {| release := rel; network := fun _ => o; clock := fun _ => noon;
     can_open := fun _ => true; write_text := fun _ _ => WriteCompletes |}.

Definition tweet_a : json :=
  JDict [(str "id", JStr (str "11")); (str "text", JStr (str "first"))].

Definition tweet_b : json :=
  JDict [(str "id", JStr (str "12")); (str "text", JStr (str "second"));
         (str "likes_count", JInt 7);
         (str "author", JDict [(str "username", JStr (str "bo"))])].

Definition tweet_null_author : json :=
  JDict [(str "id", JStr (str "13")); (str "text", JStr (str "third"));
         (str "author", JNull)].

Definition tweet_no_id : json :=
  JDict [(str "text", JStr (str "fourth"))].

Definition tweets_doc (tweets : list json) : json :=
  JDict [(str "tweets", JList tweets)].

Definition answer (data : json) : Outcome :=
  Respond {| status_code := 200; resp_text := json_dumps data;
             body := Some data |}.

Definition not_json : Outcome :=
  Respond {| status_code := 502; resp_text := str "<html>Bad Gateway</html>";
             body := None |}.

Definition env_ab : Env :=
  env_of Since_2_27 (answer (tweets_doc [tweet_a; tweet_b])).

(** The same, on a disk that is full once 20 characters are written. *)
Definition env_disk_full : Env :=
  {| release := Since_2_27;
     network := fun _ => answer (tweets_doc [tweet_a; tweet_b]);
     clock := fun _ => noon;
     can_open := fun _ => true;
     write_text := fun _ _ => WriteFails OSError 20 |}.

(** A post id made of a high surrogate followed by a low one, on an instance
    without endpoint: the request is refused before anything is sent (a
    RequestException), so the post id only goes into the Fetch Result and
    into the name of the file. *)
Definition surrogate_id : pystr := [55357; 56832]%N.

Definition world_unset : World :=
  {| service := init (fun _ => None); log := []; ticks := 0%nat;
     files := ∅ |}.

Definition env_unset : Env :=
  env_of Since_2_27 (RequestFails OtherRequestError).

(** * Definitions used by the further properties *)

(** ** One call of get_tweet_replies, as a function of the outcome of the
    request *)

(** What the [except] clause of lines 67-69 makes of an exception raised in
    the [try] block: the value handed back, and the log lines added. *)
Definition after_try (rel : RequestsRelease) (tweet : pystr) (e : Exn)
    : Result ListRef * list LogRecord :=
  if is_RequestException rel e
  then (Return (Fresh []), [ErrorRequestFailed tweet e])
  else (Raise e, []).

(** The value handed back, the buffer left behind and the log lines written
    after the first one, for each outcome of the request. *)
Definition fetch_outcome (rel : RequestsRelease) (tweet : pystr) (o : Outcome)
    : Result ListRef * list Reply * list LogRecord :=
  match o with
  | RequestFails k =>
      let (res, lines) := after_try rel tweet (RequestError k) in
      (res, [], lines)
  | Respond r =>
      let seen := [InfoStatus (status_code r); InfoContent (resp_text r)] in
      match body r with
      | None =>
          let (res, lines) := after_try rel tweet JSONDecodeError in
          (res, [], seen ++ lines)
      | Some data =>
          match has_tweets_list data with
          | Raise e =>
              let (res, lines) := after_try rel tweet e in
              (res, [], seen ++ lines)
          | Return false => (Return SelfReplies, [], seen ++ [InfoNoReplies tweet])
          | Return true =>
              match py_getitem data (str "tweets") with
              | Raise e =>
                  let (res, lines) := after_try rel tweet e in
                  (res, [], seen ++ lines)
              | Return tweets =>
                  let (rs, stopped) := map_replies (iter_list tweets) in
                  match stopped with
                  | Some e =>
                      let (res, lines) := after_try rel tweet e in
                      (res, rs, seen ++ lines)
                  | None =>
                      (Return SelfReplies, rs,
                       seen ++ [InfoFetched (length rs) tweet])
                  end
              end
          end
      end
  end.

(** The exception the dict display of lines 49-60 raises on an entry it
    cannot map: the items are evaluated in order, so a missing id is seen
    first, then an author that is not an object, then a missing text. *)
Definition mapping_error (t : json) : Exn :=
  match t with
  | JDict d =>
      if negb (has_field (str "id") t) then KeyError (str "id")
      else if negb (author_ok t) then AttributeError
      else KeyError (str "text")
  | _ => TypeError
  end.

(** [reply.get("author", {}).get("username")] on an entry that is mapped. *)
Definition username_of (d : list (pystr * json)) : json :=
  match dict_lookup (str "author") d with
  | Some (JDict a) => default JNull (dict_lookup (str "username") a)
  | _ => JNull
  end.

(** A response with a status of one's choice. *)
Definition answer_with_status (code : Z) (data : json) : Outcome :=
  Respond {| status_code := code; resp_text := json_dumps data;
             body := Some data |}.

(** The world left by a first call on [world0]. *)
Definition world_after_ab : World :=
  snd (get_tweet_replies env_ab (str "1") 100 world0).

(** ** save_replies_to_file, step by step *)

(** The path that is written: the name given, or the one of line 90. *)
Definition save_path (env : Env) (tweet : pystr) (filename : option pystr)
    (w : World) : pystr :=
  match filename with
  | Some name => name
  | None => generated_filename tweet (clock env (ticks w))
  end.

(** The world in which the fetch starts: the clock has been read once when
    the name had to be generated. *)
Definition save_start (filename : option pystr) (w : World) : World :=
  match filename with
  | Some _ => w
  | None => tick w
  end.

(** The Fetch Result of a call that got no reply, as a document. *)
Definition empty_document (tweet : pystr) (now : datetime) : json :=
  JDict [(str "tweet_id", JStr tweet);
         (str "total_replies_fetched", JInt 0);
         (str "fetch_timestamp", JStr (isoformat now));
         (str "replies", JList [])].

(** ** test_tweet_replies_fetch *)

(** What the routine prints, line by line. *)
Inductive Printed :=
| PrintTesting (operation : pystr)     (* "\nTesting <operation>..." *)
| PrintFetched (count : nat)           (* "Fetched <count> replies" *)
| PrintMetadata (document : json)      (* "Metadata: " and the dump, indent 2 *)
| PrintSaved (output_file : pystr)     (* "Saved replies to: <output_file>" *)
| PrintError (e : Exn).                (* "Error during testing: <e>" *)

(** The post id of line 106. *)
Definition test_tweet_id : pystr := str "1902962796993843331".

(** The same surroundings, with the network answering as [net]. *)
Definition with_network (env : Env) (net : Request -> Outcome) : Env :=
  {| release := release env; network := net; clock := clock env;
     can_open := can_open env; write_text := write_text env |}.

(** Lines 101-124: a new instance, then the three operations in turn, each
    with max_replies=5; [except Exception] catches whatever one of them
    raises and prints it.  [net1], [net2] and [net3] are the answers of the
    network to the three requests. *)
Definition test_tweet_replies_fetch (getenv : pystr -> option pystr)
    (env : Env) (net1 net2 net3 : Request -> Outcome) (w : World)
    : list Printed * World :=
  let w0 := {| service := init getenv; log := log w; ticks := ticks w;
               files := files w |} in
  let out0 := [PrintTesting (str "get_tweet_replies")] in
  match get_tweet_replies (with_network env net1) test_tweet_id 5 w0 with
  | (Raise e, w1) => (out0 ++ [PrintError e], w1)
  | (Return replies, w1) =>
      let out1 := out0 ++ [PrintFetched (length (deref w1 replies));
                           PrintTesting (str "get_replies_with_metadata")] in
      match get_replies_with_metadata (with_network env net2)
              test_tweet_id 5 w1 with
      | (Raise e, w2) => (out1 ++ [PrintError e], w2)
      | (Return replies_with_metadata, w2) =>
          let out2 :=
            out1 ++ [PrintMetadata (json_of_result w2 replies_with_metadata);
                     PrintTesting (str "save_replies_to_file")] in
          match save_replies_to_file (with_network env net3)
                  test_tweet_id None 5 w2 with
          | (Raise e, w3) => (out2 ++ [PrintError e], w3)
          | (Return output_file, w3) =>
              (out2 ++ [PrintSaved output_file], w3)
          end
      end
  end.

(** The three operations, as the routine announces them. *)
Definition operations : list pystr :=
  [str "get_tweet_replies"; str "get_replies_with_metadata";
   str "save_replies_to_file"].

(** The operations announced in what was printed. *)
Definition announced (out : list Printed) : list pystr :=
  omap (fun p => match p with
                 | PrintTesting operation => Some operation
                 | _ => None
                 end) out.

(** The lines that end a run: an error, or the name of the saved file. *)
Definition is_closing (p : Printed) : bool :=
  match p with
  | PrintSaved _ | PrintError _ => true
  | _ => false
  end.

(** A network that is down. *)
Definition offline (k : RequestErrorKind) : Request -> Outcome :=
  fun _ => RequestFails k.

(** Text made of ASCII characters only. *)
Definition ascii_only (s : pystr) : bool :=
  forallb (fun c => (c <? 128)%N) s.

(** A reply whose text holds a character outside ASCII (an accented e and a
    character beyond the basic plane). *)
Definition tweet_accent : json :=
  JDict [(str "id", JStr (str "14"));
         (str "text", JStr [99; 97; 102; 233; 32; 128512]%N)].

Definition env_accent : Env :=
  env_of Since_2_27 (answer (tweets_doc [tweet_accent])).

(** * Properties *)

Section Helpers.

(** Exceptions of the mapping are never request exceptions. *)
Lemma reply_info_raises rel t e :
  reply_info t = Raise e -> is_RequestException rel e = false.
Proof.
  unfold reply_info, rbind, py_getitem, py_get.
  destruct t; try (intros [= <-]; reflexivity).
  repeat (match goal with
          | |- context [dict_lookup ?k ?d] => destruct (dict_lookup k d)
          | |- context [match ?j with JNull => _ | _ => _ end] => destruct j
          end;
          try (intros [= <-]; reflexivity); try discriminate).
Qed.

Lemma map_replies_raises rel tweets e :
  snd (map_replies tweets) = Some e -> is_RequestException rel e = false.
Proof.
  induction tweets as [|t ts IH]; simpl; [discriminate|].
  destruct (reply_info t) as [r|e'] eqn:Ht.
  - destruct (map_replies ts); simpl in *. exact IH.
  - simpl. intros [= <-]. eapply reply_info_raises; eauto.
Qed.

(** The loop appends [fst (map_replies tweets)] to the buffer. *)
Lemma for_each_reply tweets w :
  for_each tweets
    (fun reply => bind (lift (reply_info reply)) replies_append) w
  = (match snd (map_replies tweets) with
     | None => Return tt
     | Some e => Raise e
     end,
     set_replies (buffer w ++ fst (map_replies tweets)) w).
Proof.
  revert w. induction tweets as [|t ts IH]; intros w; simpl.
  - unfold ret, buffer. rewrite app_nil_r.
    destruct w as [[? ? ?] ? ? ?]; reflexivity.
  - unfold bind at 1. unfold bind at 1. unfold lift.
    destruct (reply_info t) as [r|e] eqn:Ht; simpl.
    + rewrite IH. destruct (map_replies ts) as [rs oe]; simpl.
      unfold buffer; simpl. rewrite <- app_assoc. reflexivity.
    + unfold buffer. rewrite app_nil_r.
      destruct w as [[? ? ?] ? ? ?]; reflexivity.
Qed.

End Helpers.

Section GetTweetReplies.

Variables (env : Env) (tweet : pystr) (max_replies : Z) (w : World).

(** A response with a "tweets" array: the outcome is that of the loop, and
    the instance is left with the records mapped so far. *)
Lemma get_tweet_replies_tweets_service tweets :
  responds_with_tweets env w tweet tweets ->
  fst (get_tweet_replies env tweet max_replies w)
    = match snd (map_replies tweets) with
      | None => Return SelfReplies
      | Some e => Raise e
      end
  /\ service (snd (get_tweet_replies env tweet max_replies w))
    = {| api_url := api_url (service w);
         headers := headers (service w);
         self_replies := fst (map_replies tweets) |}.
Proof.
  intros (d & (r & Hnet & Hbody) & Htw).
  unfold get_tweet_replies, bind, logging, replies_clear, try_except,
    fetch_body, bind, requests_request, logging, lift, response_json.
  cbn [service set_replies api_url headers fst snd].
  change (fetch_request _ tweet) with (fetch_request (service w) tweet).
  rewrite Hnet. cbn [fst snd]. rewrite Hbody.
  unfold has_tweets_list, rbind, py_contains, py_getitem.
  rewrite Htw. cbn [isinstance_list iter_list].
  rewrite bool_decide_true by eauto.
  rewrite for_each_reply.
  pose proof (map_replies_raises (release env) tweets) as Hne.
  destruct (map_replies tweets) as [rs [e|]]; cbn [fst snd] in *.
  - rewrite (Hne e eq_refl). split; reflexivity.
  - split; reflexivity.
Qed.

Lemma get_tweet_replies_tweets tweets :
  responds_with_tweets env w tweet tweets ->
  fst (get_tweet_replies env tweet max_replies w)
    = match snd (map_replies tweets) with
      | None => Return SelfReplies
      | Some e => Raise e
      end
  /\ buffer (snd (get_tweet_replies env tweet max_replies w))
    = fst (map_replies tweets).
Proof.
  intros H. destruct (get_tweet_replies_tweets_service tweets H) as [Hr Hs].
  split; [exact Hr|]. unfold buffer. rewrite Hs. reflexivity.
Qed.

(** The call starts by clearing the buffer: what it held does not matter. *)
Lemma get_tweet_replies_forgets rs :
  get_tweet_replies env tweet max_replies (set_replies rs w)
  = get_tweet_replies env tweet max_replies w.
Proof. reflexivity. Qed.

End GetTweetReplies.

Section WellFormed.

Lemma has_field_false key d :
  has_field key (JDict d) = false -> dict_lookup key d = None.
Proof.
  simpl. intros H. apply bool_decide_eq_false in H.
  destruct (dict_lookup key d); [exfalso; eauto | reflexivity].
Qed.

(** A well-formed object is mapped, field by field. *)
Lemma reply_info_well_formed t :
  well_formed t = true ->
  exists r, reply_info t = Return r /\
    py_getitem t (str "id") = Return (reply_id r) /\
    py_getitem t (str "text") = Return (text r) /\
    (has_field (str "likes_count") t = false -> likes (metrics r) = JInt 0) /\
    (has_field (str "retweets_count") t = false ->
       retweets (metrics r) = JInt 0) /\
    (has_field (str "replies_count") t = false ->
       replies (metrics r) = JInt 0).
Proof.
  unfold well_formed, has_required_fields.
  intros H. apply andb_prop in H as [H Hauthor].
  apply andb_prop in H as [Hid Htext].
  destruct t as [| | | | | |d]; try discriminate.
  simpl in Hid, Htext, Hauthor.
  apply bool_decide_eq_true in Hid as [vid Hid].
  apply bool_decide_eq_true in Htext as [vtext Htext].
  unfold reply_info, rbind, py_getitem, py_get.
  rewrite Hid, Htext.
  destruct (dict_lookup (str "author_id") d) as [a|];
  destruct (dict_lookup (str "author") d) as [[| | | | | |au]|];
    try discriminate;
  try (destruct (dict_lookup (str "username") au));
  destruct (dict_lookup (str "created_at") d);
  destruct (dict_lookup (str "likes_count") d) eqn:Hl;
  destruct (dict_lookup (str "retweets_count") d) eqn:Hr;
  destruct (dict_lookup (str "replies_count") d) eqn:Hp;
  (eexists; split; [reflexivity|]; cbn [reply_id text metrics likes retweets replies];
   repeat split; try reflexivity;
   intros Hf; apply has_field_false in Hf; congruence).
Qed.

Lemma map_replies_well_formed tweets :
  Forall (fun t => well_formed t = true) tweets ->
  snd (map_replies tweets) = None /\
  Forall2 (fun t r => reply_info t = Return r) tweets (fst (map_replies tweets)).
Proof.
  induction 1 as [|t ts Ht _ [IHe IHrs]]; simpl.
  - split; [reflexivity | constructor].
  - destruct (reply_info_well_formed t Ht) as (r & Hr & _).
    rewrite Hr. destruct (map_replies ts) as [rs e]; simpl in *.
    split; [assumption | constructor; assumption].
Qed.

(** A loop that ran to its end mapped every entry. *)
Lemma map_replies_complete tweets :
  snd (map_replies tweets) = None ->
  Forall2 (fun t r => reply_info t = Return r) tweets (fst (map_replies tweets)).
Proof.
  induction tweets as [|t ts IH]; simpl; [constructor|].
  destruct (reply_info t) as [r|e] eqn:Ht; [|discriminate].
  destruct (map_replies ts) as [rs oe]; simpl in *.
  intros Hoe. constructor; [exact Ht | exact (IH Hoe)].
Qed.

(** The loop stops at the first entry it cannot map. *)
Lemma map_replies_stops tweets k bad e :
  Forall (fun t => well_formed t = true) (take k tweets) ->
  tweets !! k = Some bad ->
  reply_info bad = Raise e ->
  snd (map_replies tweets) = Some e /\
  Forall2 (fun t r => reply_info t = Return r)
    (take k tweets) (fst (map_replies tweets)).
Proof.
  revert k. induction tweets as [|t ts IH]; intros k Hwf Hk Hbad.
  - destruct k; discriminate.
  - destruct k as [|k]; simpl in *.
    + injection Hk as ->. rewrite Hbad. simpl. split; [reflexivity|constructor].
    + inversion Hwf as [|? ? Ht Hts]; subst.
      destruct (reply_info_well_formed t Ht) as (r & Hr & _). rewrite Hr.
      destruct (IH k Hts Hk Hbad) as [He Hrs].
      destruct (map_replies ts) as [rs oe]; simpl in *.
      split; [assumption | constructor; assumption].
Qed.

(** An entry without [id] or [text] is never mapped. *)
Lemma reply_info_missing t :
  has_required_fields t = false -> exists e, reply_info t = Raise e.
Proof.
  unfold has_required_fields, reply_info, rbind, py_getitem, py_get.
  destruct t as [| | | | | |d]; try (intros _; eexists; reflexivity).
  simpl. intros H.
  destruct (dict_lookup (str "id") d) eqn:Hid; [|eexists; reflexivity].
  destruct (dict_lookup (str "text") d) eqn:Htext.
  { rewrite !bool_decide_true in H by eauto. discriminate. }
  destruct (dict_lookup (str "author_id") d);
  destruct (dict_lookup (str "author") d) as [[| | | | | |au]|];
  try (destruct (dict_lookup (str "username") au));
  eexists; reflexivity.
Qed.

Lemma map_replies_missing tweets bad :
  In bad tweets -> has_required_fields bad = false ->
  exists e, snd (map_replies tweets) = Some e.
Proof.
  induction tweets as [|t ts IH]; intros Hin Hbad; [destruct Hin|].
  simpl. destruct (reply_info t) as [r|e] eqn:Ht.
  - destruct Hin as [->|Hin].
    + destruct (reply_info_missing _ Hbad) as [e He]. congruence.
    + destruct (IH Hin Hbad) as [e He].
      destruct (map_replies ts); simpl in *. eauto.
  - eexists; reflexivity.
Qed.

End WellFormed.

(** ** C1: well-formed entries are mapped one to one *)

(** C1, as stated, fails: an object that has both [id] and [text] but whose
    [author] is [null] makes [reply.get("author", {}).get("username")] raise
    AttributeError, so no sequence is returned. *)
Lemma C1_counterexample :
  Forall (fun t => has_required_fields t = true) [tweet_null_author] /\
  fst (get_tweet_replies (env_of Since_2_27 (answer (tweets_doc [tweet_null_author])))
         (str "1") 100 world0)
  = Raise AttributeError.
Proof. split; [repeat constructor | reflexivity]. Qed.

(** C1 (amended): for a response whose "tweets" array holds N objects, each
    with the fields id and text and with an author that is absent or itself an
    object, get_tweet_replies returns the instance buffer holding exactly N
    records; the i-th record carries the id and the text of the i-th object
    verbatim, and each of likes, retweets and replies is 0 when the source
    field likes_count, retweets_count or replies_count is absent. *)
Theorem C1_well_formed_mapping env tweet max_replies w tweets :
  responds_with_tweets env w tweet tweets ->
  Forall (fun t => well_formed t = true) tweets ->
  let out := get_tweet_replies env tweet max_replies w in
  exists ref rs,
    fst out = Return ref /\ deref (snd out) ref = rs /\
    length rs = length tweets /\
    forall i t, tweets !! i = Some t ->
      exists r, rs !! i = Some r /\
        py_getitem t (str "id") = Return (reply_id r) /\
        py_getitem t (str "text") = Return (text r) /\
        (has_field (str "likes_count") t = false ->
           likes (metrics r) = JInt 0) /\
        (has_field (str "retweets_count") t = false ->
           retweets (metrics r) = JInt 0) /\
        (has_field (str "replies_count") t = false ->
           replies (metrics r) = JInt 0).
Proof.
  intros Hresp Hwf out.
  destruct (get_tweet_replies_tweets env tweet max_replies w tweets Hresp)
    as [Hres Hbuf].
  destruct (map_replies_well_formed tweets Hwf) as [Hnone Hall].
  fold out in Hres, Hbuf. rewrite Hnone in Hres.
  exists SelfReplies, (fst (map_replies tweets)).
  split; [exact Hres|]. split; [exact Hbuf|].
  split; [symmetry; eapply Forall2_length; eauto|].
  intros i t Hi.
  destruct (Forall2_lookup_l _ _ _ _ _ Hall Hi) as (r & Hr & Hinfo).
  exists r. split; [exact Hr|].
  assert (Ht : well_formed t = true).
  { rewrite Forall_lookup in Hwf. eapply Hwf; eauto. }
  destruct (reply_info_well_formed t Ht) as (r' & Hr' & Hfields).
  assert (r' = r) as -> by congruence. exact Hfields.
Qed.

Lemma C1_well_formed_mapping_witness :
  exists ref rs,
    fst (get_tweet_replies (env_of Since_2_27 (answer (tweets_doc [tweet_a; tweet_b])))
           (str "1") 100 world0) = Return ref /\
    deref (snd (get_tweet_replies
                  (env_of Since_2_27 (answer (tweets_doc [tweet_a; tweet_b])))
                  (str "1") 100 world0)) ref = rs /\
    length rs = length [tweet_a; tweet_b] /\
    forall i t, [tweet_a; tweet_b] !! i = Some t ->
      exists r, rs !! i = Some r /\
        py_getitem t (str "id") = Return (reply_id r) /\
        py_getitem t (str "text") = Return (text r) /\
        (has_field (str "likes_count") t = false ->
           likes (metrics r) = JInt 0) /\
        (has_field (str "retweets_count") t = false ->
           retweets (metrics r) = JInt 0) /\
        (has_field (str "replies_count") t = false ->
           replies (metrics r) = JInt 0).
Proof.
  apply (C1_well_formed_mapping
           (env_of Since_2_27 (answer (tweets_doc [tweet_a; tweet_b])))
           (str "1") 100 world0 [tweet_a; tweet_b]).
  - eexists. split; [eexists; split; reflexivity | reflexivity].
  - repeat constructor.
Defined.

(** ** C2: network failures are swallowed *)

(** C2: when the request fails at the network layer, whatever the kind
    (connection error, timeout, any other RequestException), get_tweet_replies
    returns a new empty list and raises nothing. *)
Theorem C2_network_failure env tweet max_replies w k :
  network env (fetch_request (service w) tweet) = RequestFails k ->
  let out := get_tweet_replies env tweet max_replies w in
  fst out = Return (Fresh []) /\ deref (snd out) (Fresh []) = [].
Proof.
  intros Hnet out. subst out.
  unfold get_tweet_replies, bind, logging, replies_clear, try_except,
    fetch_body, bind, requests_request.
  cbn [service set_replies api_url headers fst snd].
  change (fetch_request _ tweet) with (fetch_request (service w) tweet).
  rewrite Hnet. split; reflexivity.
Qed.

Lemma C2_network_failure_witness :
  fst (get_tweet_replies (env_of Since_2_27 (RequestFails Timeout))
         (str "1") 100 world0) = Return (Fresh []) /\
  deref (snd (get_tweet_replies (env_of Since_2_27 (RequestFails Timeout))
                (str "1") 100 world0)) (Fresh []) = [].
Proof.
  apply (C2_network_failure (env_of Since_2_27 (RequestFails Timeout))
           (str "1") 100 world0 Timeout).
  reflexivity.
Defined.

(** ** C3: a body that is not JSON *)

(** C3, as stated, fails under requests 2.27 and later: the error raised by
    [response.json()] is then a RequestException, the handler of lines 67-69
    catches it, and the call returns an empty list. *)
Lemma C3_counterexample :
  exists r,
    network (env_of Since_2_27 not_json)
      (fetch_request (service world0) (str "1")) = Respond r /\
    body r = None /\
    fst (get_tweet_replies (env_of Since_2_27 not_json) (str "1") 100 world0)
    = Return (Fresh []).
Proof. eexists. repeat split; reflexivity. Qed.

(** C3 (amended): for a response whose body is not valid JSON, the decode
    error raised by response.json() propagates to the caller only under
    requests releases before 2.27, where it is not a RequestException; from
    requests 2.27 on it is one, the handler catches it, and get_tweet_replies
    returns a new empty list. *)
Theorem C3_unparseable_body env tweet max_replies w r :
  network env (fetch_request (service w) tweet) = Respond r ->
  body r = None ->
  fst (get_tweet_replies env tweet max_replies w)
  = match release env with
    | Before_2_27 => Raise JSONDecodeError
    | Since_2_27 => Return (Fresh [])
    end.
Proof.
  intros Hnet Hbody.
  unfold get_tweet_replies, bind, logging, replies_clear, try_except,
    fetch_body, bind, requests_request, logging, lift, response_json.
  cbn [service set_replies api_url headers fst snd].
  change (fetch_request _ tweet) with (fetch_request (service w) tweet).
  rewrite Hnet. cbn [fst snd]. rewrite Hbody.
  cbn [is_RequestException]. destruct (release env); reflexivity.
Qed.

Lemma C3_unparseable_body_witness :
  fst (get_tweet_replies (env_of Before_2_27 not_json) (str "1") 100 world0)
  = Raise JSONDecodeError.
Proof.
  apply (C3_unparseable_body (env_of Before_2_27 not_json) (str "1") 100 world0
           {| status_code := 502; resp_text := str "<html>Bad Gateway</html>";
              body := None |}); reflexivity.
Defined.

(** ** C4: an entry without a required field aborts the call *)

(** C4: when some entry of the "tweets" array lacks id or text, the call
    raises an exception that is not a RequestException, so it reaches the
    caller: the entry is not skipped and no partial list is returned. *)
Theorem C4_missing_field_propagates env tweet max_replies w tweets bad :
  responds_with_tweets env w tweet tweets ->
  In bad tweets ->
  has_required_fields bad = false ->
  exists e, fst (get_tweet_replies env tweet max_replies w) = Raise e /\
            is_RequestException (release env) e = false.
Proof.
  intros Hresp Hin Hbad.
  destruct (get_tweet_replies_tweets env tweet max_replies w tweets Hresp)
    as [Hres _].
  destruct (map_replies_missing tweets bad Hin Hbad) as [e He].
  exists e. rewrite Hres, He. split; [reflexivity|].
  eapply map_replies_raises; eauto.
Qed.

Lemma C4_missing_field_propagates_witness :
  exists e,
    fst (get_tweet_replies
           (env_of Since_2_27 (answer (tweets_doc [tweet_a; tweet_no_id; tweet_b])))
           (str "1") 100 world0) = Raise e /\
    is_RequestException Since_2_27 e = false.
Proof.
  apply (C4_missing_field_propagates
           (env_of Since_2_27 (answer (tweets_doc [tweet_a; tweet_no_id; tweet_b])))
           (str "1") 100 world0 [tweet_a; tweet_no_id; tweet_b] tweet_no_id).
  - eexists. split; [eexists; split; reflexivity | reflexivity].
  - right; left; reflexivity.
  - reflexivity.
Defined.

(** ** C5: no "tweets" array *)

(** C5, as stated, fails: the body [null] parses and has no "tweets" key, yet
    ["tweets" in replies_data] raises TypeError on it, which is not caught. *)
Lemma C5_counterexample :
  responds_with (env_of Since_2_27 (answer JNull)) world0 (str "1") JNull /\
  fst (get_tweet_replies (env_of Since_2_27 (answer JNull)) (str "1") 100 world0)
  = Raise TypeError.
Proof. split; [eexists; split; reflexivity | reflexivity]. Qed.

(** C5 (amended): for a response whose body parses to an object that lacks
    the "tweets" key or whose "tweets" value is not an array, and likewise for
    a body that is an array without the element "tweets" or a string without
    the substring "tweets", get_tweet_replies returns the instance buffer,
    which is empty.  (On a body that is null, a boolean or a number the
    membership test raises TypeError instead.) *)
Theorem C5_no_tweets_array env tweet max_replies w data :
  responds_with env w tweet data ->
  lacks_tweets_list data = true ->
  let out := get_tweet_replies env tweet max_replies w in
  exists ref, fst out = Return ref /\ deref (snd out) ref = [].
Proof.
  intros (r & Hnet & Hbody) Hlacks out. subst out.
  exists SelfReplies.
  unfold get_tweet_replies, bind, logging, replies_clear, try_except,
    fetch_body, bind, requests_request, logging, lift, response_json.
  cbn [service set_replies api_url headers fst snd].
  change (fetch_request _ tweet) with (fetch_request (service w) tweet).
  rewrite Hnet. cbn [fst snd]. rewrite Hbody.
  unfold has_tweets_list, rbind, py_contains, py_getitem.
  destruct data as [| | | |s|l|d]; try discriminate; simpl in Hlacks.
  - apply negb_true_iff in Hlacks. rewrite Hlacks. split; reflexivity.
  - apply negb_true_iff in Hlacks. rewrite Hlacks. split; reflexivity.
  - destruct (dict_lookup (str "tweets") d) as [v|] eqn:Htw.
    + rewrite bool_decide_true by eauto.
      destruct v; try discriminate; split; reflexivity.
    + rewrite bool_decide_false by (intros [? ?]; discriminate).
      split; reflexivity.
Qed.

Lemma C5_no_tweets_array_witness :
  exists ref,
    fst (get_tweet_replies
           (env_of Since_2_27 (answer (JDict [(str "tweets", JStr (str "none"))])))
           (str "1") 100 world0) = Return ref /\
    deref (snd (get_tweet_replies
           (env_of Since_2_27 (answer (JDict [(str "tweets", JStr (str "none"))])))
           (str "1") 100 world0)) ref = [].
Proof.
  apply (C5_no_tweets_array
           (env_of Since_2_27 (answer (JDict [(str "tweets", JStr (str "none"))])))
           (str "1") 100 world0 (JDict [(str "tweets", JStr (str "none"))])).
  - eexists; split; reflexivity.
  - reflexivity.
Defined.

(** ** C6: the count of the Fetch Result *)

(** C6: get_replies_with_metadata returns exactly when get_tweet_replies
    does; the Fetch Result then holds the list that call returned, and its
    total_replies_fetched is the length of that list. *)
Theorem C6_total_is_length env tweet max_replies w :
  match get_replies_with_metadata env tweet max_replies w with
  | (Return result, w') =>
      fst (get_tweet_replies env tweet max_replies w)
        = Return (fetched_replies result) /\
      total_replies_fetched result = length (deref w' (fetched_replies result))
  | (Raise e, _) =>
      fst (get_tweet_replies env tweet max_replies w) = Raise e
  end.
Proof.
  unfold get_replies_with_metadata, bind.
  destruct (get_tweet_replies env tweet max_replies w) as [[ref|e] w1];
    [|reflexivity].
  cbn. split; [reflexivity|]. destruct ref; reflexivity.
Qed.

(** ** C7: order is preserved *)

(** C7: for a response with a "tweets" array, whenever get_tweet_replies
    returns a list, that list has the length of the array and its i-th record
    is the mapping of the i-th element: nothing is reordered, inserted or
    left out.  For a well-formed array (each entry an object with id and
    text whose author is absent or an object) the call does return. *)
Theorem C7_order_preserved env tweet max_replies w tweets :
  responds_with_tweets env w tweet tweets ->
  let out := get_tweet_replies env tweet max_replies w in
  (forall ref, fst out = Return ref ->
     length (deref (snd out) ref) = length tweets /\
     forall i t, tweets !! i = Some t ->
       exists r, deref (snd out) ref !! i = Some r /\ reply_info t = Return r)
  /\
  (Forall (fun t => well_formed t = true) tweets ->
   exists ref, fst out = Return ref).
Proof.
  intros Hresp out.
  destruct (get_tweet_replies_tweets env tweet max_replies w tweets Hresp)
    as [Hres Hbuf].
  fold out in Hres, Hbuf. split.
  - intros ref Href. rewrite Hres in Href.
    destruct (snd (map_replies tweets)) eqn:Hsnd; [discriminate|].
    injection Href as <-.
    pose proof (map_replies_complete tweets Hsnd) as Hall.
    change (deref (snd out) SelfReplies) with (buffer (snd out)). rewrite Hbuf.
    split; [symmetry; eapply Forall2_length; eauto|].
    intros i t Hi.
    destruct (Forall2_lookup_l _ _ _ _ _ Hall Hi) as (r & Hr & Hinfo). eauto.
  - intros Hwf. destruct (map_replies_well_formed tweets Hwf) as [Hnone _].
    rewrite Hnone in Hres. eauto.
Qed.

Lemma C7_order_preserved_witness :
  (forall ref,
     fst (get_tweet_replies
            (env_of Since_2_27 (answer (tweets_doc [tweet_b; tweet_a])))
            (str "1") 100 world0) = Return ref ->
     length (deref (snd (get_tweet_replies
                     (env_of Since_2_27 (answer (tweets_doc [tweet_b; tweet_a])))
                     (str "1") 100 world0)) ref) = length [tweet_b; tweet_a] /\
     forall i t, [tweet_b; tweet_a] !! i = Some t ->
       exists r,
         deref (snd (get_tweet_replies
                     (env_of Since_2_27 (answer (tweets_doc [tweet_b; tweet_a])))
                     (str "1") 100 world0)) ref !! i = Some r /\
         reply_info t = Return r)
  /\
  (Forall (fun t => well_formed t = true) [tweet_b; tweet_a] ->
   exists ref,
     fst (get_tweet_replies
            (env_of Since_2_27 (answer (tweets_doc [tweet_b; tweet_a])))
            (str "1") 100 world0) = Return ref).
Proof.
  apply (C7_order_preserved
           (env_of Since_2_27 (answer (tweets_doc [tweet_b; tweet_a])))
           (str "1") 100 world0 [tweet_b; tweet_a]).
  eexists. split; [eexists; split; reflexivity | reflexivity].
Defined.

(** The sample array is well formed and comes back in its order. *)
Example order_sample :
  Forall (fun t => well_formed t = true) [tweet_b; tweet_a] /\
  fst (get_tweet_replies
         (env_of Since_2_27 (answer (tweets_doc [tweet_b; tweet_a])))
         (str "1") 100 world0) = Return SelfReplies /\
  map reply_id
    (buffer (snd (get_tweet_replies
                    (env_of Since_2_27 (answer (tweets_doc [tweet_b; tweet_a])))
                    (str "1") 100 world0)))
  = [JStr (str "12"); JStr (str "11")].
Proof. split; [repeat constructor | split; reflexivity]. Qed.

(** ** C8: max_replies is not used *)

(** C8: two calls that differ only in max_replies give the same result and
    leave the same world; and no value of max_replies bounds the count: for
    every max_replies some response makes the call return more records. *)
Theorem C8_max_replies_ignored :
  (forall env tweet (m1 m2 : Z) w,
     get_tweet_replies env tweet m1 w = get_tweet_replies env tweet m2 w) /\
  (forall m : Z, exists env tweet w ref,
     fst (get_tweet_replies env tweet m w) = Return ref /\
     (m < Z.of_nat (length (deref (snd (get_tweet_replies env tweet m w)) ref)))%Z).
Proof.
  split; [reflexivity|].
  intros m.
  set (tweets := repeat tweet_a (S (Z.to_nat m))).
  set (env := env_of Since_2_27 (answer (tweets_doc tweets))).
  assert (Hresp : responds_with_tweets env world0 (str "1") tweets).
  { eexists. split; [eexists; split; reflexivity | reflexivity]. }
  assert (Hwf : Forall (fun t => well_formed t = true) tweets).
  { apply List.Forall_forall. intros t Ht. apply repeat_spec in Ht. subst t.
    reflexivity. }
  destruct (get_tweet_replies_tweets env (str "1") m world0 tweets Hresp)
    as [Hres Hbuf].
  destruct (map_replies_well_formed tweets Hwf) as [Hnone Hall].
  rewrite Hnone in Hres.
  exists env, (str "1"), world0, SelfReplies. split; [exact Hres|].
  change (deref ?w SelfReplies) with (buffer w). rewrite Hbuf.
  rewrite <- (Forall2_length _ _ _ Hall). unfold tweets.
  rewrite repeat_length. lia.
Qed.

(** ** C10: the buffer after an aborted call *)

(** C10, as stated, fails: after a first call that stored the record of
    [tweet_a], a second call whose array is [tweet_a] followed by an entry
    without id aborts at index 1 and leaves the instance exactly as it was
    when the second call started. *)
Lemma C10_counterexample :
  let w1 := snd (get_tweet_replies
                   (env_of Since_2_27 (answer (tweets_doc [tweet_a])))
                   (str "1") 100 world0) in
  let out := get_tweet_replies
               (env_of Since_2_27 (answer (tweets_doc [tweet_a; tweet_no_id])))
               (str "1") 100 w1 in
  [tweet_a; tweet_no_id] !! 1%nat = Some tweet_no_id /\
  has_required_fields tweet_no_id = false /\
  fst out = Raise (KeyError (str "id")) /\
  length (buffer (snd out)) = 1%nat /\
  service (snd out) = service w1.
Proof. repeat split; reflexivity. Qed.

(** C10 (amended): when the entry at index k lacks id or text and the entries
    before it are well formed, the call raises, and the buffer is left holding
    exactly the k records mapped from entries 0 to k-1: nothing is rolled
    back.  The instance therefore differs from what it was at the start of
    the call exactly when the buffer did not already hold those k records
    (for one, when it was empty and k is at least 1).  The next call clears
    the buffer first, so it behaves as on an empty buffer. *)
Theorem C10_partial_buffer env tweet max_replies w tweets k bad :
  responds_with_tweets env w tweet tweets ->
  Forall (fun t => well_formed t = true) (take k tweets) ->
  tweets !! k = Some bad ->
  has_required_fields bad = false ->
  let out := get_tweet_replies env tweet max_replies w in
  exists e rs,
    fst out = Raise e /\
    is_RequestException (release env) e = false /\
    Forall2 (fun t r => reply_info t = Return r) (take k tweets) rs /\
    length rs = k /\
    buffer (snd out) = rs /\
    (service (snd out) = service w <-> buffer w = rs) /\
    (forall env' tweet' m',
       get_tweet_replies env' tweet' m' (snd out)
       = get_tweet_replies env' tweet' m' (set_replies [] (snd out))).
Proof.
  intros Hresp Hwf Hk Hbad out.
  destruct (reply_info_missing bad Hbad) as [e He].
  destruct (map_replies_stops tweets k bad e Hwf Hk He) as [Hsnd Hall].
  destruct (get_tweet_replies_tweets_service env tweet max_replies w tweets Hresp)
    as [Hres Hsvc].
  fold out in Hres, Hsvc. rewrite Hsnd in Hres.
  exists e, (fst (map_replies tweets)).
  split; [exact Hres|].
  split; [eapply reply_info_raises; eauto|].
  split; [exact Hall|].
  split.
  { rewrite <- (Forall2_length _ _ _ Hall). apply length_take_le.
    apply lookup_lt_Some in Hk. lia. }
  split; [unfold buffer; rewrite Hsvc; reflexivity|].
  split.
  - rewrite Hsvc. unfold buffer. destruct (service w) as [u h b]; simpl.
    split; [intros [= <-]; reflexivity | intros ->; reflexivity].
  - intros env' tweet' m'. symmetry. apply get_tweet_replies_forgets.
Qed.

Lemma C10_partial_buffer_witness :
  exists e rs,
    fst (get_tweet_replies
           (env_of Since_2_27 (answer (tweets_doc [tweet_a; tweet_no_id; tweet_b])))
           (str "1") 100 world0) = Raise e /\
    is_RequestException Since_2_27 e = false /\
    Forall2 (fun t r => reply_info t = Return r)
      (take 1 [tweet_a; tweet_no_id; tweet_b]) rs /\
    length rs = 1%nat /\
    buffer (snd (get_tweet_replies
           (env_of Since_2_27 (answer (tweets_doc [tweet_a; tweet_no_id; tweet_b])))
           (str "1") 100 world0)) = rs /\
    (service (snd (get_tweet_replies
           (env_of Since_2_27 (answer (tweets_doc [tweet_a; tweet_no_id; tweet_b])))
           (str "1") 100 world0)) = service world0 <-> buffer world0 = rs) /\
    (forall env' tweet' m',
       get_tweet_replies env' tweet' m'
         (snd (get_tweet_replies
           (env_of Since_2_27 (answer (tweets_doc [tweet_a; tweet_no_id; tweet_b])))
           (str "1") 100 world0))
       = get_tweet_replies env' tweet' m'
           (set_replies []
             (snd (get_tweet_replies
               (env_of Since_2_27 (answer (tweets_doc [tweet_a; tweet_no_id; tweet_b])))
               (str "1") 100 world0)))).
Proof.
  apply (C10_partial_buffer
           (env_of Since_2_27 (answer (tweets_doc [tweet_a; tweet_no_id; tweet_b])))
           (str "1") 100 world0 [tweet_a; tweet_no_id; tweet_b] 1 tweet_no_id).
  - eexists. split; [eexists; split; reflexivity | reflexivity].
  - repeat constructor.
  - reflexivity.
  - reflexivity.
Defined.

(** ** The JSON round trip *)

Local Open Scope N_scope.

(** The two formats of the clock, and a text no encoder wrote. *)
Example isoformat_noon :
  isoformat noon = str "2025-03-21T12:00:05" /\
  isoformat {| year := 2025; month := 3; day := 21; hour := 12; minute := 0;
               second := 5; microsecond := 1500 |}
  = str "2025-03-21T12:00:05.001500" /\
  strftime noon = str "20250321_120005".
Proof. repeat split; reflexivity. Qed.

Example json_loads_by_hand :
  json_loads (str " {'tweets': [ {'id': 7, 'x': 1.5, 'id': 8} , [], -0 ] } ")
  = None /\
  json_loads ([123; 34] ++ str "tweets" ++ [34] ++ str ": [ {"
              ++ [34] ++ str "id" ++ [34] ++ str ": 7, "
              ++ [34] ++ str "x" ++ [34] ++ str ": 1.5, "
              ++ [34] ++ str "id" ++ [34] ++ str ":8} , [], -0 ] } ")
  = Some (JDict [(str "tweets",
                  JList [JDict [(str "id", JInt 8);
                                (str "x", JFloat (str "1.5"))];
                         JList []; JInt 0])]).
Proof. split; vm_compute; reflexivity. Qed.

Section Hex.

Lemma hex_value_digit d : d < 16 -> hex_value (hex_digit d) = Some d.
Proof.
  intros Hd. unfold hex_value, hex_digit.
  destruct (N.ltb_spec d 10).
  - replace ((48 <=? 48 + d) && (48 + d <=? 57)) with true
      by (symmetry; apply andb_true_iff; split; apply N.leb_le; lia).
    f_equal. lia.
  - replace ((48 <=? 87 + d) && (87 + d <=? 57)) with false
      by (symmetry; apply andb_false_iff; right; apply N.leb_gt; lia).
    replace ((97 <=? 87 + d) && (87 + d <=? 102)) with true
      by (symmetry; apply andb_true_iff; split; apply N.leb_le; lia).
    f_equal. lia.
Qed.

Lemma parse_hex4_hex4 n rest :
  n < 65536 -> parse_hex4 (hex4 n ++ rest) = Some (n, rest).
Proof.
  intros Hn. unfold hex4, parse_hex4. cbn [app].
  assert (H16 : forall m, m mod 16 < 16) by (intros m; apply N.mod_lt; lia).
  rewrite !hex_value_digit by apply H16.
  f_equal. f_equal.
  pose proof (N.div_mod n 16 ltac:(lia)) as E0.
  pose proof (N.div_mod (n / 16) 16 ltac:(lia)) as E1.
  pose proof (N.div_mod (n / 16 / 16) 16 ltac:(lia)) as E2.
  replace (n / 256) with (n / 16 / 16) by (rewrite N.Div0.div_div; reflexivity).
  replace (n / 4096) with (n / 16 / 16 / 16)
    by (rewrite !N.Div0.div_div; reflexivity).
  assert (n / 16 / 16 / 16 < 16).
  { rewrite !N.Div0.div_div. apply N.Div0.div_lt_upper_bound. simpl. lia. }
  rewrite (N.mod_small (n / 16 / 16 / 16) 16) by assumption.
  lia.
Qed.

End Hex.

Section Strings.

Lemma scanstring_unfold f c s1 :
  scanstring (S f) (c :: s1) =
  if c =? 34 then Some ([], s1)
  else if c =? 92 then
    match s1 with
    | [] => None
    | e :: s2 =>
        if e =? 117 then
          match parse_hex4 s2 with
          | None => None
          | Some (u, s3) =>
              if is_high u then
                match s3 with
                | b :: x :: s4 =>
                    if (b =? 92) && (x =? 117) then
                      match parse_hex4 s4 with
                      | None => None
                      | Some (u2, s5) =>
                          if is_low u2
                          then prepend (65536 + (u - 55296) * 1024
                                        + (u2 - 56320))
                                 (scanstring f s5)
                          else prepend u (scanstring f s3)
                      end
                    else prepend u (scanstring f s3)
                | _ => prepend u (scanstring f s3)
                end
              else prepend u (scanstring f s3)
          end
        else
          match unescape e with
          | Some c' => prepend c' (scanstring f s2)
          | None => None
          end
    end
  else if c <? 32 then None
  else prepend c (scanstring f s1).
Proof. reflexivity. Qed.

Lemma scan_lone u t f :
  (is_high u = true -> no_low_escape t) ->
  (if is_high u then
     match t with
     | b :: x :: s4 =>
         if (b =? 92) && (x =? 117) then
           match parse_hex4 s4 with
           | None => None
           | Some (u2, s5) =>
               if is_low u2
               then prepend (65536 + (u - 55296) * 1024 + (u2 - 56320))
                      (scanstring f s5)
               else prepend u (scanstring f t)
           end
         else prepend u (scanstring f t)
     | _ => prepend u (scanstring f t)
     end
   else prepend u (scanstring f t)) = prepend u (scanstring f t).
Proof.
  intros H. destruct (is_high u); [|reflexivity].
  specialize (H eq_refl).
  destruct t as [|b [|x s4]]; try reflexivity.
  simpl in H. destruct ((b =? 92) && (x =? 117)); [|reflexivity].
  destruct (H eq_refl) as (u2 & r & -> & ->). reflexivity.
Qed.

(** Decoding undoes the escape of one character. *)
Lemma scan_char c t f :
  c < 1114112 ->
  (is_high c = true -> no_low_escape t) ->
  scanstring (S f) (escape_char c ++ t) = prepend c (scanstring f t).
Proof.
  intros Hc Hlow. unfold escape_char.
  destruct (N.eqb_spec c 34) as [->|?]; [reflexivity|].
  destruct (N.eqb_spec c 92) as [->|?]; [reflexivity|].
  destruct (N.eqb_spec c 10) as [->|?]; [reflexivity|].
  destruct (N.eqb_spec c 13) as [->|?]; [reflexivity|].
  destruct (N.eqb_spec c 9) as [->|?]; [reflexivity|].
  destruct (N.eqb_spec c 12) as [->|?]; [reflexivity|].
  destruct (N.eqb_spec c 8) as [->|?]; [reflexivity|].
  destruct (N.leb_spec 32 c); destruct (N.leb_spec c 126); cbn [andb].
  - cbn [app]. rewrite scanstring_unfold.
    rewrite (proj2 (N.eqb_neq c 34)), (proj2 (N.eqb_neq c 92)) by assumption.
    rewrite (proj2 (N.ltb_ge c 32)) by assumption. reflexivity.
  - destruct (N.ltb_spec c 65536).
    + cbn [app]. rewrite scanstring_unfold. cbn [N.eqb Pos.eqb].
      rewrite parse_hex4_hex4 by assumption. apply scan_lone; assumption.
    + rewrite <- app_comm_cons. rewrite <- app_comm_cons.
      rewrite scanstring_unfold. cbn [N.eqb Pos.eqb].
      rewrite <- app_assoc.
      assert (Hq : (c - 65536) / 1024 < 1024)
        by (apply N.Div0.div_lt_upper_bound; lia).
      assert (Hm : (c - 65536) mod 1024 < 1024) by (apply N.mod_lt; lia).
      pose proof (N.div_mod (c - 65536) 1024 ltac:(lia)) as Hdm.
      set (q := (c - 65536) / 1024) in *.
      set (m := (c - 65536) mod 1024) in *.
      clearbody q m.
      rewrite parse_hex4_hex4 by lia.
      replace (is_high (55296 + q)) with true
        by (symmetry; unfold is_high; apply andb_true_iff; split;
            apply N.leb_le; lia).
      cbn [app N.eqb Pos.eqb andb].
      rewrite parse_hex4_hex4 by lia.
      replace (is_low (56320 + m)) with true
        by (symmetry; unfold is_low; apply andb_true_iff; split;
            apply N.leb_le; lia).
      f_equal. lia.
  - replace (c <? 65536) with true by (symmetry; apply N.ltb_lt; lia).
    cbn [app]. rewrite scanstring_unfold. cbn [N.eqb Pos.eqb].
    rewrite parse_hex4_hex4 by lia. apply scan_lone; assumption.
  - lia.
Qed.

(** The escape of a character that is not a low surrogate does not read as
    the escape of one. *)
Lemma escape_char_no_low c t :
  c < 1114112 -> is_low c = false -> no_low_escape (escape_char c ++ t).
Proof.
  intros Hc Hlow. unfold escape_char.
  destruct (N.eqb_spec c 34) as [->|?]; [intros [=]|].
  destruct (N.eqb_spec c 92) as [->|?]; [intros [=]|].
  destruct (N.eqb_spec c 10) as [->|?]; [intros [=]|].
  destruct (N.eqb_spec c 13) as [->|?]; [intros [=]|].
  destruct (N.eqb_spec c 9) as [->|?]; [intros [=]|].
  destruct (N.eqb_spec c 12) as [->|?]; [intros [=]|].
  destruct (N.eqb_spec c 8) as [->|?]; [intros [=]|].
  destruct ((32 <=? c) && (c <=? 126)).
  - cbn [app]. destruct t as [|x s4]; [exact I|].
    unfold no_low_escape. rewrite (proj2 (N.eqb_neq c 92)) by assumption.
    intros [=].
  - destruct (N.ltb_spec c 65536).
    + cbn [app no_low_escape]. intros _.
      rewrite parse_hex4_hex4 by assumption. eauto.
    + rewrite <- !app_comm_cons. cbn [no_low_escape]. intros _.
      rewrite <- app_assoc.
      assert (Hq : (c - 65536) / 1024 < 1024)
        by (apply N.Div0.div_lt_upper_bound; lia).
      set (q := (c - 65536) / 1024) in *. clearbody q.
      rewrite parse_hex4_hex4 by lia.
      eexists _, _. split; [reflexivity|].
      unfold is_low. apply andb_false_iff. left. apply N.leb_gt. lia.
Qed.

Lemma scanstring_escape s : forall rest f,
  str_ok s = true ->
  (length s < f)%nat ->
  scanstring f (escape s ++ 34 :: rest) = Some (s, rest).
Proof.
  induction s as [|c s IH]; intros rest f Hok Hf.
  - destruct f; [simpl in Hf; lia | reflexivity].
  - destruct f as [|f]; [simpl in Hf; lia|].
    cbn [str_ok] in Hok.
    apply andb_true_iff in Hok as [Hok Hs].
    apply andb_true_iff in Hok as [Hc Hnext].
    apply N.ltb_lt in Hc.
    cbn [escape]. rewrite <- app_assoc.
    rewrite scan_char; [|assumption|].
    + rewrite IH by (simpl in Hf; first [assumption | lia]). reflexivity.
    + intros Hhigh. destruct s as [|c' s'];
        [simpl; destruct rest; [exact I | intros [=]]|].
      cbn [escape]. rewrite <- app_assoc.
      rewrite Hhigh in Hnext. cbn [andb negb] in Hnext.
      cbn [str_ok] in Hs. apply andb_true_iff in Hs as [Hs _].
      apply andb_true_iff in Hs as [Hc' _]. apply N.ltb_lt in Hc'.
      apply escape_char_no_low; [assumption|].
      destruct (is_low c'); [discriminate | reflexivity].
Qed.

Lemma length_escape s : (length s <= length (escape s))%nat.
Proof.
  induction s as [|c s IH]; [reflexivity|].
  cbn [escape]. rewrite length_app. simpl.
  assert (1 <= length (escape_char c))%nat; [|lia].
  unfold escape_char.
  repeat match goal with
         | |- context [if ?b then _ else _] => destruct b
         end; simpl; try lia.
  all: rewrite ?length_app; simpl; lia.
Qed.

End Strings.

Section Numbers.

Lemma span_all (p : N -> bool) a rest :
  forallb p a = true ->
  match rest with [] => true | c :: _ => negb (p c) end = true ->
  span p (a ++ rest) = (a, rest).
Proof.
  intros Ha Hrest. induction a as [|c a IH]; simpl.
  - destruct rest as [|c r]; [reflexivity|].
    apply negb_true_iff in Hrest. simpl. rewrite Hrest. reflexivity.
  - simpl in Ha. apply andb_true_iff in Ha as [-> Ha].
    rewrite (IH Ha). reflexivity.
Qed.

Lemma uint_digits_digit u : forallb is_digit (uint_digits u) = true.
Proof. induction u; simpl; auto. Qed.

Lemma digits_uint_digits u : digits_uint (uint_digits u) = u.
Proof. induction u; simpl; rewrite ?IHu; reflexivity. Qed.

Lemma is_digit_number_char c : is_digit c = true -> is_number_char c = true.
Proof. unfold is_number_char. intros ->. reflexivity. Qed.

Lemma digits_number_chars ds :
  forallb is_digit ds = true -> forallb is_number_char ds = true.
Proof.
  induction ds as [|c ds IH]; simpl; [reflexivity|].
  intros H. apply andb_true_iff in H as [Hc Hds].
  rewrite (is_digit_number_char c Hc), (IH Hds). reflexivity.
Qed.

(** The digits of a positive number do not start with a zero. *)
Lemma pos_digits_head p :
  exists c t, uint_digits (Pos.to_uint p) = c :: t /\
              (c =? 48) = false /\ (c =? 45) = false /\ is_digit c = true.
Proof.
  destruct (Pos.to_uint p) as [|u|u|u|u|u|u|u|u|u|u] eqn:E;
    try (eexists _, _; repeat split; reflexivity).
  - exfalso. eapply Unsigned.to_uint_nonnil; eauto.
  - exfalso.
    pose proof (Unsigned.to_of (Pos.to_uint p)) as Hn.
    rewrite Unsigned.of_to in Hn. simpl in Hn.
    rewrite E in Hn. rewrite unorm_D0 in Hn.
    destruct (Decimal.uint_eq_dec (Decimal.nzhead u) Decimal.Nil) as [Hz|Hz].
    + unfold Decimal.unorm in Hn. rewrite Hz in Hn.
      injection Hn as Hu. subst u.
      eapply Unsigned.to_uint_nonzero; eauto.
    + rewrite (unorm_nzhead u Hz) in Hn.
      pose proof (nb_digits_nzhead u) as Hle.
      rewrite <- Hn in Hle. simpl in Hle. lia.
Qed.

Lemma int_part_ok_pos p : int_part_ok (uint_digits (Pos.to_uint p)) = true.
Proof.
  pose proof (uint_digits_digit (Pos.to_uint p)) as Hd.
  destruct (pos_digits_head p) as (c & t & E & H48 & _ & Hc).
  rewrite E in *. simpl in Hd. unfold int_part_ok.
  rewrite H48, Hc. apply andb_true_iff in Hd as [_ ->]. reflexivity.
Qed.

Lemma classify_pos p :
  classify_number (uint_digits (Pos.to_uint p)) = Some (JInt (Zpos p)).
Proof.
  unfold classify_number.
  destruct (pos_digits_head p) as (c & t & E & _ & H45 & _).
  rewrite E, H45. rewrite <- E.
  rewrite <- (app_nil_r (uint_digits _)).
  rewrite span_all by (auto using uint_digits_digit).
  rewrite int_part_ok_pos, digits_uint_digits.
  change (N.of_uint (Pos.to_uint p)) with (Pos.of_uint (Pos.to_uint p)).
  rewrite Unsigned.of_to. reflexivity.
Qed.

Lemma classify_Z_repr z : classify_number (Z_repr z) = Some (JInt z).
Proof.
  destruct z as [|p|p]; [reflexivity | apply classify_pos |].
  unfold classify_number, Z_repr. cbn [N.eqb Pos.eqb].
  rewrite <- (app_nil_r (uint_digits _)).
  rewrite span_all by (auto using uint_digits_digit).
  rewrite int_part_ok_pos, digits_uint_digits.
  change (N.of_uint (Pos.to_uint p)) with (Pos.of_uint (Pos.to_uint p)).
  rewrite Unsigned.of_to. reflexivity.
Qed.

Lemma Z_repr_number_chars z : forallb is_number_char (Z_repr z) = true.
Proof.
  destruct z as [|p|p]; [reflexivity| |]; simpl;
    apply digits_number_chars, uint_digits_digit.
Qed.

Lemma Z_repr_head z : exists c t, Z_repr z = c :: t.
Proof.
  destruct z as [|p|p]; simpl; eauto.
  destruct (pos_digits_head p) as (c & t & E & _). eauto.
Qed.

Lemma startswith_head n ns c s :
  (n =? c) = false -> startswith (n :: ns) (c :: s) = false.
Proof. intros H. simpl. rewrite H. reflexivity. Qed.

(** A token of number characters is read back whole. *)
Lemma parse_atom_number tok v rest :
  tok <> [] ->
  forallb is_number_char tok = true ->
  classify_number tok = Some v ->
  follow_ok rest = true ->
  parse_atom (tok ++ rest) = Some (v, rest).
Proof.
  intros Hne Htok Hv Hrest. unfold parse_atom.
  destruct tok as [|c tok]; [congruence|].
  assert (Hc : is_number_char c = true)
    by (simpl in Htok; apply andb_true_iff in Htok as [? _]; assumption).
  assert (Hn : (110 =? c) = false /\ (116 =? c) = false /\ (102 =? c) = false).
  { unfold is_number_char, is_digit in Hc.
    repeat split; apply N.eqb_neq; intros <-; discriminate. }
  destruct Hn as (Hn & Ht & Hf).
  cbn [app].
  change (str "null") with [110; 117; 108; 108].
  change (str "true") with [116; 114; 117; 101].
  change (str "false") with [102; 97; 108; 115; 101].
  rewrite !startswith_head by assumption.
  change (c :: tok ++ rest) with ((c :: tok) ++ rest).
  rewrite span_all by assumption.
  rewrite Hv. reflexivity.
Qed.

Lemma parse_atom_int z rest :
  follow_ok rest = true ->
  parse_atom (Z_repr z ++ rest) = Some (JInt z, rest).
Proof.
  intros Hrest. apply parse_atom_number.
  - destruct (Z_repr_head z) as (c & t & ->). discriminate.
  - apply Z_repr_number_chars.
  - apply classify_Z_repr.
  - assumption.
Qed.

Lemma classify_float tok v :
  classify_number tok = Some v ->
  match v with JFloat _ => v = JFloat tok | _ => True end.
Proof.
  unfold classify_number.
  destruct (match tok with [] => _ | _ => _ end) as [neg digits].
  destruct (span is_digit _) as [ip tail].
  destruct (int_part_ok ip); [|discriminate].
  destruct tail.
  - intros [= <-]. exact I.
  - destruct (float_tail_ok _); [|discriminate]. intros [= <-]. reflexivity.
Qed.

Lemma parse_atom_float r rest :
  float_ok r = true ->
  follow_ok rest = true ->
  parse_atom (r ++ rest) = Some (JFloat r, rest).
Proof.
  unfold float_ok. intros Hr Hrest.
  apply orb_true_iff in Hr as [Hr|Hr];
    [apply orb_true_iff in Hr as [Hr|Hr]|].
  - apply andb_true_iff in Hr as [Hchars Hcls].
    destruct (classify_number r) as [v|] eqn:Hv; [|discriminate].
    pose proof (classify_float r v Hv) as Hf.
    destruct v; try discriminate. injection Hf as ->.
    apply parse_atom_number; try assumption.
    intros ->. discriminate.
  - apply bool_decide_eq_true in Hr. subst r. reflexivity.
  - apply bool_decide_eq_true in Hr. subst r. reflexivity.
Qed.

(** A number character is no blank, quote, bracket or brace. *)
Lemma number_char_plain c :
  is_number_char c = true ->
  is_ws c = false /\ (c =? 34) = false /\ (c =? 123) = false /\
  (c =? 91) = false /\ (c =? 93) = false /\ (c =? 125) = false.
Proof.
  unfold is_number_char, is_digit, is_ws. intros H.
  rewrite !orb_true_iff, andb_true_iff, !N.eqb_eq, !N.leb_le in H.
  rewrite !orb_false_iff, !N.eqb_neq. lia.
Qed.

(** No value is written with a leading blank or as the empty text. *)
Lemma float_ok_head r :
  float_ok r = true ->
  exists c t, r = c :: t /\ is_ws c = false /\
              (c =? 34) = false /\ (c =? 123) = false /\ (c =? 91) = false /\
              (c =? 93) = false /\ (c =? 125) = false.
Proof.
  unfold float_ok. intros Hr.
  apply orb_true_iff in Hr as [Hr|Hr];
    [apply orb_true_iff in Hr as [Hr|Hr]|].
  - apply andb_true_iff in Hr as [Hchars Hcls].
    destruct r as [|c t]; [discriminate|].
    simpl in Hchars. apply andb_true_iff in Hchars as [Hc _].
    exists c, t. split; [reflexivity | apply number_char_plain, Hc].
  - apply bool_decide_eq_true in Hr. subst r.
    eexists _, _. repeat split; reflexivity.
  - apply bool_decide_eq_true in Hr. subst r.
    eexists _, _. repeat split; reflexivity.
Qed.

Lemma Z_repr_head_ok z :
  exists c t, Z_repr z = c :: t /\ is_ws c = false /\
              (c =? 34) = false /\ (c =? 123) = false /\ (c =? 91) = false /\
              (c =? 93) = false /\ (c =? 125) = false.
Proof.
  pose proof (Z_repr_number_chars z) as Hchars.
  destruct (Z_repr_head z) as (c & t & E). rewrite E in Hchars.
  simpl in Hchars. apply andb_true_iff in Hchars as [Hc _].
  exists c, t. split; [assumption | apply number_char_plain, Hc].
Qed.

End Numbers.

(** Induction on documents, through arrays and objects. *)
Lemma json_ind (P : json -> Prop)
  (Hnull : P JNull)
  (Hbool : forall b, P (JBool b))
  (Hint : forall z, P (JInt z))
  (Hfloat : forall r, P (JFloat r))
  (Hstr : forall s, P (JStr s))
  (Hlist : forall l, Forall P l -> P (JList l))
  (Hdict : forall d, Forall (fun kv => P (snd kv)) d -> P (JDict d)) :
  forall v, P v.
Proof.
  fix IH 1. intros [| b | z | r | s | l | d].
  - exact Hnull.
  - apply Hbool.
  - apply Hint.
  - apply Hfloat.
  - apply Hstr.
  - apply Hlist. induction l as [|x l IHl]; constructor; [apply IH | exact IHl].
  - apply Hdict. induction d as [|[k x] d IHd]; constructor;
      [apply IH | exact IHd].
Qed.

(** Lengths of concatenations, for the fuel bounds. *)
Ltac lens :=
  repeat (progress (rewrite ?length_app in *; cbn [length] in *)); lia.

Section RoundTrip.

Lemma skip_ws_head c s : is_ws c = false -> skip_ws (c :: s) = c :: s.
Proof. intros H. simpl. rewrite H. reflexivity. Qed.

Lemma skip_ws_spaces n s : skip_ws (repeat 32 n ++ s) = skip_ws s.
Proof. induction n as [|n IH]; [reflexivity | exact IH]. Qed.

Lemma skip_ws_newline_indent level s :
  skip_ws (newline_indent level ++ s) = skip_ws s.
Proof. unfold newline_indent. cbn [app]. apply skip_ws_spaces. Qed.

Lemma json_encode_head level v :
  json_ok v = true ->
  exists c t, json_encode level v = c :: t /\ opens_value c.
Proof.
  unfold opens_value.
  destruct v as [| [|] | z | r | s | [|x l] | [|kv d]]; intros Hok;
    try (eexists _, _; repeat split; reflexivity).
  - destruct (Z_repr_head_ok z) as (c & t & E & Hws & _ & _ & _ & H4 & H5).
    exists c, t. repeat split; assumption.
  - simpl in Hok.
    destruct (float_ok_head r Hok) as (c & t & E & Hws & _ & _ & _ & H4 & H5).
    exists c, t. repeat split; assumption.
Qed.

Lemma skip_ws_encode level v rest :
  json_ok v = true ->
  skip_ws (json_encode level v ++ rest) = json_encode level v ++ rest.
Proof.
  intros Hok. destruct (json_encode_head level v Hok) as (c & t & E & Hws & _).
  rewrite E. cbn [app]. apply skip_ws_head. exact Hws.
Qed.

(** Setting fresh keys one by one only appends. *)
Lemma dict_set_fresh k v d :
  k ∉ map fst d -> dict_set k v d = d ++ [(k, v)].
Proof.
  induction d as [|[k' v'] d IH]; simpl; intros Hk; [reflexivity|].
  apply not_elem_of_cons in Hk as [Hne Hk].
  destruct (decide (k' = k)); [congruence|]. rewrite IH by assumption.
  reflexivity.
Qed.

Lemma dict_of_pairs_nodup d : NoDup (map fst d) -> dict_of_pairs d = d.
Proof.
  unfold dict_of_pairs.
  assert (H : forall acc, NoDup (map fst (acc ++ d)) ->
     fold_left (fun d0 kv => dict_set (fst kv) (snd kv) d0) d acc = acc ++ d).
  { induction d as [|[k v] d IH]; intros acc Hnd; simpl.
    - rewrite app_nil_r. reflexivity.
    - rewrite dict_set_fresh.
      + rewrite IH; rewrite <- app_assoc; [reflexivity | exact Hnd].
      + rewrite map_app in Hnd. apply NoDup_app in Hnd as (_ & Hdis & _).
        intros Hin. apply (Hdis k Hin). simpl. left. }
  intros Hnd. apply (H []). exact Hnd.
Qed.

Lemma parse_value_unfold f c s1 :
  parse_value (S f) (c :: s1) =
  if c =? 34 then
    match scanstring (length s1) s1 with
    | Some (x, rest) => Some (JStr x, rest)
    | None => None
    end
  else if c =? 123 then
    match skip_ws s1 with
    | [] => None
    | c2 :: s2 =>
        if c2 =? 125 then Some (JDict [], s2)
        else match parse_members f (c2 :: s2) with
             | Some (pairs, rest) => Some (JDict (dict_of_pairs pairs), rest)
             | None => None
             end
    end
  else if c =? 91 then
    match skip_ws s1 with
    | [] => None
    | c2 :: s2 =>
        if c2 =? 93 then Some (JList [], s2)
        else match parse_elements f (c2 :: s2) with
             | Some (l, rest) => Some (JList l, rest)
             | None => None
             end
    end
  else parse_atom (c :: s1).
Proof. reflexivity. Qed.

Lemma parse_elements_unfold f s :
  parse_elements (S f) s =
  match parse_value f s with
  | None => None
  | Some (v, r) =>
      match skip_ws r with
      | [] => None
      | c :: r' =>
          if c =? 44 then
            match parse_elements f (skip_ws r') with
            | Some (vs, rest) => Some (v :: vs, rest)
            | None => None
            end
          else if c =? 93 then Some ([v], r')
          else None
      end
  end.
Proof. reflexivity. Qed.

Lemma parse_members_unfold f s1 :
  parse_members (S f) (34 :: s1) =
  match scanstring (length s1) s1 with
  | None => None
  | Some (k, r) =>
      match skip_ws r with
      | [] => None
      | c :: r1 =>
          if c =? 58 then
            match parse_value f (skip_ws r1) with
            | None => None
            | Some (v, r2) =>
                match skip_ws r2 with
                | [] => None
                | c' :: r3 =>
                    if c' =? 44 then
                      match parse_members f (skip_ws r3) with
                      | Some (ms, rest) => Some ((k, v) :: ms, rest)
                      | None => None
                      end
                    else if c' =? 125 then Some ([(k, v)], r3)
                    else None
                end
            end
          else None
      end
  end.
Proof. reflexivity. Qed.

Lemma scan_encode_str s rest :
  str_ok s = true ->
  scanstring (length (escape s ++ 34 :: rest)) (escape s ++ 34 :: rest)
  = Some (s, rest).
Proof.
  intros Hok. apply scanstring_escape; [exact Hok|].
  rewrite length_app. pose proof (length_escape s). simpl. lia.
Qed.

Lemma follow_newline level s : follow_ok (newline_indent level ++ s) = true.
Proof. reflexivity. Qed.

Lemma follow_comma s : follow_ok (44 :: s) = true.
Proof. reflexivity. Qed.

Lemma join_map_more {A} (item : A -> pystr) sep x y l :
  join_map item sep (x :: y :: l)
  = item x ++ sep ++ join_map item sep (y :: l).
Proof. reflexivity. Qed.

Lemma elements_read_back l :
  l <> [] ->
  Forall reads_back l ->
  forallb json_ok l = true ->
  forall level rest fuel,
    (2 * length (join_map (json_encode (S level))
                   (44%N :: newline_indent (S level)) l
                 ++ newline_indent level ++ 93%N :: rest) + 2 <= fuel)%nat ->
    parse_elements fuel
      (join_map (json_encode (S level)) (44 :: newline_indent (S level)) l
       ++ newline_indent level ++ 93 :: rest)
    = Some (l, rest).
Proof.
  induction l as [|x l IH]; [congruence|]. intros _ Hall Hok level rest fuel Hf.
  inversion Hall as [|? ? Hx Hl]; subst.
  cbn [forallb] in Hok. apply andb_true_iff in Hok as [Hokx Hokl].
  destruct fuel as [|f]; [lia|].
  rewrite parse_elements_unfold.
  destruct l as [|y l'].
  - cbn [join_map] in *.
    rewrite (Hx Hokx (S level) _ f (follow_newline _ _)) by lia.
    rewrite skip_ws_newline_indent. reflexivity.
  - rewrite join_map_more in Hf |- *. rewrite <- !app_assoc in Hf |- *.
    cbn [app] in Hf |- *.
    rewrite (Hx Hokx (S level) _ f (follow_comma _)) by lia.
    cbn [app skip_ws is_ws N.eqb Pos.eqb orb].
    rewrite skip_ws_newline_indent.
    assert (Hhead : skip_ws
              (join_map (json_encode (S level))
                 (44 :: newline_indent (S level)) (y :: l')
               ++ newline_indent level ++ 93 :: rest)
            = join_map (json_encode (S level))
                 (44 :: newline_indent (S level)) (y :: l')
               ++ newline_indent level ++ 93 :: rest).
    { cbn [forallb] in Hokl. apply andb_true_iff in Hokl as [Hoky _].
      destruct l'; [|rewrite join_map_more]; rewrite <- ?app_assoc;
        apply skip_ws_encode; exact Hoky. }
    rewrite Hhead.
    rewrite (IH ltac:(discriminate) Hl Hokl level rest f); [reflexivity|].
    lens.
Qed.

Lemma members_read_back d :
  d <> [] ->
  Forall (fun kv => reads_back (snd kv)) d ->
  forallb (fun kv => match kv with
                     | (k, x) => str_ok k && json_ok x
                     end) d = true ->
  forall level rest fuel,
    (2 * length (join_map (member_text level)
                   (44%N :: newline_indent (S level)) d
                 ++ newline_indent level ++ 125%N :: rest) + 2 <= fuel)%nat ->
    parse_members fuel
      (join_map (member_text level) (44 :: newline_indent (S level)) d
       ++ newline_indent level ++ 125 :: rest)
    = Some (d, rest).
Proof.
  induction d as [|[k x] d IH]; [congruence|].
  intros _ Hall Hok level rest fuel Hf.
  inversion Hall as [|? ? Hx Hd]; subst. cbn [snd] in Hx.
  cbn [forallb] in Hok. apply andb_true_iff in Hok as [Hokx Hokd].
  apply andb_true_iff in Hokx as [Hokk Hokx].
  destruct fuel as [|f]; [lia|].
  destruct d as [|[k' y] d'].
  - cbn [join_map member_text] in Hf |- *. unfold encode_str in Hf |- *.
    rewrite <- !app_assoc in Hf |- *. cbn [app] in Hf |- *.
    rewrite <- !app_assoc in Hf |- *. cbn [app] in Hf |- *.
    rewrite parse_members_unfold, scan_encode_str by exact Hokk.
    cbn [skip_ws is_ws N.eqb Pos.eqb orb].
    rewrite skip_ws_encode by exact Hokx.
    rewrite (Hx Hokx (S level) _ f (follow_newline _ _)) by lens.
    rewrite skip_ws_newline_indent. reflexivity.
  - rewrite join_map_more in Hf |- *.
    cbn [member_text] in Hf |- *. unfold encode_str in Hf |- *.
    rewrite <- !app_assoc in Hf |- *. cbn [app] in Hf |- *.
    rewrite <- !app_assoc in Hf |- *. cbn [app] in Hf |- *.
    rewrite parse_members_unfold, scan_encode_str by exact Hokk.
    cbn [skip_ws is_ws N.eqb Pos.eqb orb].
    rewrite skip_ws_encode by exact Hokx.
    rewrite (Hx Hokx (S level) _ f (follow_comma _)) by lens.
    cbn [skip_ws is_ws N.eqb Pos.eqb orb].
    rewrite skip_ws_newline_indent.
    assert (Hhead : forall tail,
              skip_ws (join_map (member_text level)
                         (44 :: newline_indent (S level)) ((k', y) :: d')
                       ++ tail)
              = join_map (member_text level)
                  (44 :: newline_indent (S level)) ((k', y) :: d')
                ++ tail).
    { intros tail. destruct d'; [|rewrite join_map_more];
        cbn [join_map member_text]; unfold encode_str;
        rewrite <- ?app_assoc; reflexivity. }
    rewrite Hhead.
    rewrite (IH ltac:(discriminate) Hd Hokd level rest f); [reflexivity|].
    lens.
Qed.

(** Every well-formed document is read back from its encoding. *)
Lemma parse_value_encode v : reads_back v.
Proof.
  induction v as [| b | z | r | s | l IHl | d IHd] using json_ind;
    intros Hok level rest fuel Hrest Hf;
    (destruct fuel as [|f]; [lia|]).
  - reflexivity.
  - destruct b; reflexivity.
  - destruct (Z_repr_head_ok z) as (c & t & E & _ & H1 & H2 & H3 & _).
    cbn [json_encode]. rewrite <- (parse_atom_int z rest Hrest).
    rewrite E. cbn [app]. rewrite parse_value_unfold, H1, H2, H3.
    reflexivity.
  - cbn [json_ok] in Hok.
    destruct (float_ok_head r Hok) as (c & t & E & _ & H1 & H2 & H3 & _).
    cbn [json_encode]. rewrite <- (parse_atom_float r rest Hok Hrest).
    rewrite E. cbn [app]. rewrite parse_value_unfold, H1, H2, H3.
    reflexivity.
  - cbn [json_ok] in Hok. cbn [json_encode]. unfold encode_str.
    rewrite <- app_comm_cons, <- app_assoc. cbn [app].
    rewrite parse_value_unfold. cbn [N.eqb Pos.eqb].
    rewrite scan_encode_str by exact Hok. reflexivity.
  - destruct l as [|x l]; [reflexivity|].
    cbn [json_ok] in Hok.
    assert (Hx : json_ok x = true)
      by (cbn [forallb] in Hok; apply andb_true_iff in Hok as [? _];
          assumption).
    change (json_encode level (JList (x :: l)))
      with ([91] ++ newline_indent (S level) ++
            join_map (json_encode (S level))
              (44 :: newline_indent (S level)) (x :: l) ++
            newline_indent level ++ [93]) in Hf |- *.
    rewrite <- !app_assoc in Hf |- *. cbn [app] in Hf |- *.
    rewrite parse_value_unfold. cbn [N.eqb Pos.eqb].
    rewrite skip_ws_newline_indent.
    assert (Hhead : exists c t,
              join_map (json_encode (S level))
                (44 :: newline_indent (S level)) (x :: l) = c :: t /\
              opens_value c).
    { destruct (json_encode_head (S level) x Hx) as (c & t & E & Hc).
      destruct l; [|rewrite join_map_more]; cbn [join_map]; rewrite E;
        eexists _, _; (split; [reflexivity | exact Hc]). }
    destruct Hhead as (c & t & E & Hws & H93 & _).
    pose proof (elements_read_back (x :: l) ltac:(discriminate) IHl Hok
                  level rest f) as Hel.
    rewrite E in Hel, Hf |- *. cbn [app] in Hel, Hf |- *.
    rewrite (skip_ws_head _ _ Hws), H93, Hel; [reflexivity|].
    lens.
  - destruct d as [|[k x] d]; [reflexivity|].
    cbn [json_ok] in Hok. apply andb_true_iff in Hok as [Hok Hnd].
    apply bool_decide_eq_true in Hnd.
    change (json_encode level (JDict ((k, x) :: d)))
      with ([123] ++ newline_indent (S level) ++
            join_map (member_text level)
              (44 :: newline_indent (S level)) ((k, x) :: d) ++
            newline_indent level ++ [125]) in Hf |- *.
    rewrite <- !app_assoc in Hf |- *. cbn [app] in Hf |- *.
    rewrite parse_value_unfold. cbn [N.eqb Pos.eqb].
    rewrite skip_ws_newline_indent.
    assert (Hhead : exists t,
              join_map (member_text level)
                (44 :: newline_indent (S level)) ((k, x) :: d) = 34 :: t).
    { destruct d; [|rewrite join_map_more]; cbn [join_map member_text];
        unfold encode_str; eexists; reflexivity. }
    destruct Hhead as (t & E).
    pose proof (members_read_back ((k, x) :: d) ltac:(discriminate) IHd Hok
                  level rest f) as Hmem.
    rewrite E in Hmem, Hf |- *. cbn [app] in Hmem, Hf |- *.
    cbn [skip_ws is_ws N.eqb Pos.eqb orb].
    rewrite Hmem by lens.
    rewrite (dict_of_pairs_nodup _ Hnd). reflexivity.
Qed.

(** [json.loads(json.dumps(v, indent=4)) == v] *)
Lemma json_loads_dumps v :
  json_ok v = true -> json_loads (json_dumps v) = Some v.
Proof.
  intros Hok. unfold json_loads, json_dumps.
  rewrite <- (app_nil_r (json_encode 0 v)) at 2.
  rewrite skip_ws_encode by exact Hok.
  rewrite (parse_value_encode v Hok 0%nat [] _ eq_refl).
  - reflexivity.
  - rewrite app_nil_r. lia.
Qed.

End RoundTrip.

Local Close Scope N_scope.

(** ** C9: saving the result *)

Section Documents.

(** Text made of ASCII characters has no surrogates to worry about. *)
Lemma ascii_str_ok s :
  forallb (fun c => (c <? 128)%N) s = true -> str_ok s = true.
Proof.
  induction s as [|c s IH]; [reflexivity|].
  cbn [forallb str_ok]. intros H. apply andb_true_iff in H as [Hc Hs].
  apply N.ltb_lt in Hc. rewrite (IH Hs).
  replace (c <? 1114112)%N with true by (symmetry; apply N.ltb_lt; lia).
  replace (is_high c) with false.
  - destruct s; reflexivity.
  - symmetry. unfold is_high. apply andb_false_iff. left.
    apply N.leb_gt. lia.
Qed.

Lemma uint_digits_ascii u :
  forallb (fun c => (c <? 128)%N) (uint_digits u) = true.
Proof. induction u; simpl; auto. Qed.

Lemma zfill_ascii width n :
  forallb (fun c => (c <? 128)%N) (zfill width (N_repr n)) = true.
Proof.
  unfold zfill, N_repr. rewrite forallb_app, uint_digits_ascii, andb_true_r.
  induction (width - _)%nat; simpl; auto.
Qed.

Lemma isoformat_ok d : str_ok (isoformat d) = true.
Proof.
  apply ascii_str_ok. unfold isoformat.
  rewrite !forallb_app, !zfill_ascii.
  destruct (microsecond d =? 0)%N; [reflexivity|].
  rewrite forallb_app, zfill_ascii. reflexivity.
Qed.

(** What a well-formed document holds is well formed. *)
Lemma dict_lookup_ok key d v :
  json_ok (JDict d) = true -> dict_lookup key d = Some v -> json_ok v = true.
Proof.
  cbn [json_ok]. intros H. apply andb_true_iff in H as [H _].
  induction d as [|[k x] d IH]; simpl; [discriminate|].
  cbn [forallb] in H. apply andb_true_iff in H as [Hkx Hd].
  apply andb_true_iff in Hkx as [_ Hx].
  destruct (decide (k = key)); [intros [= <-]; exact Hx | exact (IH Hd)].
Qed.

Lemma py_getitem_ok t key v :
  json_ok t = true -> py_getitem t key = Return v -> json_ok v = true.
Proof.
  destruct t as [| | | | | |d]; try discriminate. intros Hok. simpl.
  destruct (dict_lookup key d) eqn:E; [|discriminate].
  intros [= <-]. eapply dict_lookup_ok; eauto.
Qed.

Lemma py_get_ok t key default v :
  json_ok t = true -> json_ok default = true ->
  py_get t key default = Return v -> json_ok v = true.
Proof.
  destruct t as [| | | | | |d]; try discriminate. intros Hok Hdef. simpl.
  destruct (dict_lookup key d) eqn:E; intros [= <-];
    [eapply dict_lookup_ok; eauto | exact Hdef].
Qed.

Lemma reply_info_ok t r :
  json_ok t = true -> reply_info t = Return r -> reply_ok r.
Proof.
  intros Hok. unfold reply_info, rbind.
  destruct (py_getitem t (str "id")) as [v1|] eqn:E1; [|discriminate].
  destruct (py_get t (str "author_id") JNull) as [v2|] eqn:E2; [|discriminate].
  destruct (py_get t (str "author") (JDict [])) as [v3|] eqn:E3;
    [|discriminate].
  destruct (py_get v3 (str "username") JNull) as [v4|] eqn:E4; [|discriminate].
  destruct (py_getitem t (str "text")) as [v5|] eqn:E5; [|discriminate].
  destruct (py_get t (str "created_at") JNull) as [v6|] eqn:E6; [|discriminate].
  destruct (py_get t (str "likes_count") (JInt 0)) as [v7|] eqn:E7;
    [|discriminate].
  destruct (py_get t (str "retweets_count") (JInt 0)) as [v8|] eqn:E8;
    [|discriminate].
  destruct (py_get t (str "replies_count") (JInt 0)) as [v9|] eqn:E9;
    [|discriminate].
  intros [= <-].
  pose proof (py_getitem_ok _ _ _ Hok E1) as H1.
  pose proof (py_get_ok _ _ JNull _ Hok eq_refl E2) as H2.
  pose proof (py_get_ok _ _ (JDict []) _ Hok eq_refl E3) as H3.
  pose proof (py_get_ok _ _ JNull _ H3 eq_refl E4) as H4.
  pose proof (py_getitem_ok _ _ _ Hok E5) as H5.
  pose proof (py_get_ok _ _ JNull _ Hok eq_refl E6) as H6.
  pose proof (py_get_ok _ _ (JInt 0) _ Hok eq_refl E7) as H7.
  pose proof (py_get_ok _ _ (JInt 0) _ Hok eq_refl E8) as H8.
  pose proof (py_get_ok _ _ (JInt 0) _ Hok eq_refl E9) as H9.
  unfold reply_ok, json_of_reply.
  cbn [json_ok forallb reply_id author_id author_username text created_at
       metrics likes retweets replies].
  rewrite H1, H2, H4, H5, H6, H7, H8, H9. reflexivity.
Qed.

Lemma map_replies_ok tweets :
  forallb json_ok tweets = true -> Forall reply_ok (fst (map_replies tweets)).
Proof.
  induction tweets as [|t ts IH]; simpl; [constructor|].
  intros H. apply andb_true_iff in H as [Ht Hts].
  destruct (reply_info t) as [r|e] eqn:E; [|constructor].
  specialize (IH Hts). destruct (map_replies ts) as [rs oe]. simpl in *.
  constructor; [eapply reply_info_ok; eauto | exact IH].
Qed.

End Documents.

Section Saving.

Variables (env : Env) (tweet : pystr) (max_replies : Z).

Local Arguments str : simpl never.

(** Whatever list a successful fetch hands back holds well-formed records. *)
Lemma get_tweet_replies_returns_ok w ref :
  answers_ok env tweet w ->
  fst (get_tweet_replies env tweet max_replies w) = Return ref ->
  Forall reply_ok (deref (snd (get_tweet_replies env tweet max_replies w)) ref).
Proof.
  intros Hok.
  destruct (network env (fetch_request (service w) tweet)) as [r|k] eqn:Hnet.
  - destruct (body r) as [data|] eqn:Hbody.
    + specialize (Hok r data Hnet Hbody).
      assert (Hshape :
        (exists d tweets, data = JDict d /\
           dict_lookup (str "tweets") d = Some (JList tweets)) \/
        (forall d tweets, data = JDict d ->
           dict_lookup (str "tweets") d <> Some (JList tweets))).
      { destruct data as [| | | | | |d]; try (right; discriminate).
        destruct (dict_lookup (str "tweets") d) as [[| | | | |tweets|]|] eqn:E;
          try (right; intros ? ? [= <-]; congruence).
        left; eauto. }
      destruct Hshape as [(d & tweets & -> & Htw)|Hnot].
      * destruct (get_tweet_replies_tweets env tweet max_replies w tweets)
          as [Hres Hbuf].
        { exists d. split; [exists r; split; assumption | exact Htw]. }
        rewrite Hres.
        destruct (snd (map_replies tweets)); [discriminate|].
        intros [= <-]. change (deref ?x SelfReplies) with (buffer x).
        rewrite Hbuf. apply map_replies_ok.
        exact (dict_lookup_ok _ _ _ Hok Htw).
      * unfold get_tweet_replies, bind, logging, replies_clear, try_except,
          fetch_body, bind, requests_request, logging, lift, response_json.
        cbn [service set_replies api_url headers fst snd].
        change (fetch_request _ tweet) with (fetch_request (service w) tweet).
        rewrite Hnet. cbn [fst snd]. rewrite Hbody.
        unfold has_tweets_list, rbind, py_contains, py_getitem.
        destruct data as [| | | |s|l|d]; cbn; try discriminate.
        -- destruct (str_contains _ s); cbn; [discriminate|].
           intros [= <-]. constructor.
        -- destruct (existsb _ l); cbn; [discriminate|].
           intros [= <-]. constructor.
        -- destruct (dict_lookup (str "tweets") d) as [v|] eqn:Htw.
           ++ rewrite bool_decide_true by eauto.
              destruct v; cbn; try (intros [= <-]; constructor).
              exfalso. eapply (Hnot d l eq_refl). exact Htw.
           ++ rewrite bool_decide_false by (intros [? ?]; discriminate).
              cbn. intros [= <-]. constructor.
    + unfold get_tweet_replies, bind, logging, replies_clear, try_except,
        fetch_body, bind, requests_request, logging, lift, response_json.
      cbn [service set_replies api_url headers fst snd].
      change (fetch_request _ tweet) with (fetch_request (service w) tweet).
      rewrite Hnet. cbn [fst snd]. rewrite Hbody.
      cbn [is_RequestException]. destruct (release env); cbn;
        [discriminate | intros [= <-]; constructor].
  - unfold get_tweet_replies, bind, logging, replies_clear, try_except,
      fetch_body, bind, requests_request.
    cbn [service set_replies api_url headers fst snd].
    change (fetch_request _ tweet) with (fetch_request (service w) tweet).
    rewrite Hnet. cbn. intros [= <-]. constructor.
Qed.

(** get_replies_with_metadata, in terms of the fetch it wraps. *)
Lemma get_replies_with_metadata_unfold w :
  get_replies_with_metadata env tweet max_replies w =
  match get_tweet_replies env tweet max_replies w with
  | (Return ref, w') =>
      (Return {| tweet_id := tweet;
                 total_replies_fetched := length (deref w' ref);
                 fetch_timestamp := isoformat (clock env (ticks w'));
                 fetched_replies := ref |},
       tick w')
  | (Raise e, w') => (Raise e, w')
  end.
Proof.
  unfold get_replies_with_metadata, bind.
  destruct (get_tweet_replies env tweet max_replies w) as [[ref|e] w'];
    reflexivity.
Qed.

(** The Fetch Result of a successful call is a well-formed document. *)
Lemma fetch_result_ok w result w1 :
  str_ok tweet = true ->
  answers_ok env tweet w ->
  get_replies_with_metadata env tweet max_replies w = (Return result, w1) ->
  json_ok (json_of_result w1 result) = true.
Proof.
  intros Htweet Hok. rewrite get_replies_with_metadata_unfold.
  pose proof (get_tweet_replies_returns_ok w) as Hrs.
  destruct (get_tweet_replies env tweet max_replies w) as [[ref|e] w'];
    [|discriminate].
  intros [= <- <-]. specialize (Hrs ref Hok eq_refl). cbn [snd] in Hrs.
  unfold json_of_result.
  cbn [json_ok forallb tweet_id total_replies_fetched fetch_timestamp
       fetched_replies].
  rewrite Htweet, isoformat_ok.
  change (deref (tick w') ref) with (deref w' ref).
  replace (forallb json_ok (map json_of_reply (deref w' ref))) with true.
  - reflexivity.
  - symmetry. induction Hrs as [|r rs Hr _ IH]; [reflexivity|].
    cbn [map forallb]. rewrite Hr, IH. reflexivity.
Qed.

End Saving.




(** The round trip does depend on the post id: a high surrogate followed by a
    low one is written as two escapes, which json.load reads as one
    character.  (This needs a file system that takes the name, as the ones
    with UTF-16 names do.) *)
Example surrogate_id_is_not_read_back :
  exists path w2 content document,
    save_replies_to_file env_unset surrogate_id None 100 world_unset
      = (Return path, w2) /\
    files w2 !! path = Some content /\
    json_loads content = Some (JDict document) /\
    dict_lookup (str "tweet_id") document = Some (JStr [128512%N]) /\
    str_ok surrogate_id = false.
Proof.
  eexists _, _, _, _. split; [reflexivity|].
  split; [apply lookup_insert_eq|].
  split; [vm_compute; reflexivity|].
  split; reflexivity.
Qed.

(** The sample run does reach the file: the name it returns, and the first
    lines of what it writes. *)
Example save_sample_returns :
  fst (save_replies_to_file env_ab (str "1") None 100 world0)
  = Return (str "replies_to_1_20250321_120005.json").
Proof. vm_compute. reflexivity. Qed.

Example save_sample_writes :
  exists more,
    files (snd (save_replies_to_file env_ab (str "1") None 100 world0))
      !! str "replies_to_1_20250321_120005.json"
    = Some (str "{" ++ [10%N] ++ str "    " ++ encode_str (str "tweet_id")
            ++ str ": " ++ encode_str (str "1") ++ str "," ++ [10%N]
            ++ str "    " ++ encode_str (str "total_replies_fetched")
            ++ str ": 2," ++ more).
Proof. eexists. vm_compute. reflexivity. Qed.

(** A malformed entry leaves no file behind. *)
Example save_sample_aborts :
  save_replies_to_file
    (env_of Since_2_27 (answer (tweets_doc [tweet_a; tweet_no_id])))
    (str "1") None 100 world0
  = (Raise (KeyError (str "id")),
     snd (get_tweet_replies
            (env_of Since_2_27 (answer (tweets_doc [tweet_a; tweet_no_id])))
            (str "1") 100 (tick world0))).
Proof. reflexivity. Qed.

(** The Fetch Result keeps a reference to the instance buffer: its count is
    the length of the list when the call returns (C6), and a later fetch on
    the same instance changes the list under it. *)
Example stale_fetch_result :
  let first := get_replies_with_metadata env_ab (str "1") 100 world0 in
  let later := get_tweet_replies (env_of Since_2_27 (answer (tweets_doc [])))
                 (str "2") 100 (snd first) in
  exists result,
    fst first = Return result /\
    total_replies_fetched result = 2%nat /\
    length (deref (snd first) (fetched_replies result)) = 2%nat /\
    length (deref (snd later) (fetched_replies result)) = 0%nat.
Proof. eexists. repeat split; reflexivity. Qed.

(** * Further properties of the service *)

(** ** get_tweet_replies in every case *)

Section EveryCase.

Variables (env : Env) (tweet : pystr) (max_replies : Z) (w : World).

(** The call leaves the configuration, the clock and the files alone; what
    it returns, the buffer and the log follow the outcome of the request. *)
Lemma get_tweet_replies_outcome :
  get_tweet_replies env tweet max_replies w =
  let '(res, rs, lines) :=
    fetch_outcome (release env) tweet
      (network env (fetch_request (service w) tweet)) in
  (res,
   {| service := {| api_url := api_url (service w);
                    headers := headers (service w);
                    self_replies := rs |};
      log := (log w ++ [InfoStart tweet]) ++ lines;
      ticks := ticks w;
      files := files w |}).
Proof.
  unfold get_tweet_replies, bind, logging, replies_clear, try_except,
    fetch_body, bind, requests_request, logging, lift, response_json.
  cbn [service set_replies api_url headers fst snd log ticks files].
  change (fetch_request _ tweet) with (fetch_request (service w) tweet).
  unfold fetch_outcome, after_try.
  destruct (network env (fetch_request (service w) tweet)) as [r|k].
  - cbn [fst snd service log ticks files].
    destruct (body r) as [data|].
    + destruct (has_tweets_list data) as [[|]|e] eqn:Hcond.
      * destruct (py_getitem data (str "tweets")) as [tweets|e] eqn:Htw.
        -- rewrite for_each_reply. unfold buffer.
           cbn [service set_replies self_replies api_url headers log ticks
                files fst snd app].
           pose proof (map_replies_raises (release env) (iter_list tweets))
             as Hne.
           destruct (map_replies (iter_list tweets)) as [rs [e|]];
             cbn [fst snd] in *.
           ++ rewrite (Hne e eq_refl). rewrite ?app_nil_r, <- ?app_assoc.
              reflexivity.
           ++ unfold replies_len, ret.
              cbn [service set_replies self_replies api_url headers log ticks
                   files fst snd app].
              rewrite <- ?app_assoc. reflexivity.
        -- destruct (is_RequestException (release env) e);
             cbn; rewrite <- ?app_assoc; rewrite ?app_nil_r; reflexivity.
      * cbn. rewrite <- ?app_assoc. reflexivity.
      * destruct (is_RequestException (release env) e);
          cbn; rewrite <- ?app_assoc; rewrite ?app_nil_r; reflexivity.
    + destruct (is_RequestException (release env) JSONDecodeError);
        cbn; rewrite <- ?app_assoc; rewrite ?app_nil_r; reflexivity.
  - cbn. reflexivity.
Qed.

End EveryCase.

(** ** The mapping of one entry *)

Section OneEntry.

Local Arguments str : simpl never.

(** Whatever the mapping raises is [mapping_error]; and it raises on every
    entry that is not well formed. *)
Lemma reply_info_cases t :
  match reply_info t with
  | Return _ => well_formed t = true
  | Raise e => well_formed t = false /\ e = mapping_error t
  end.
Proof.
  unfold reply_info, rbind, py_getitem, py_get, well_formed,
    has_required_fields, mapping_error, author_ok.
  destruct t as [| | | | | |d]; try (split; reflexivity).
  cbn [has_field].
  destruct (dict_lookup (str "id") d) as [vid|] eqn:Hid.
  2:{ rewrite bool_decide_false by (intros [? ?]; discriminate).
      split; reflexivity. }
  rewrite (bool_decide_true (is_Some (Some vid))) by eauto.
  cbn [negb andb].
  destruct (dict_lookup (str "author_id") d);
  destruct (dict_lookup (str "author") d) as [[| | | | | |au]|];
    try (split; [apply andb_false_r | reflexivity]);
  try destruct (dict_lookup (str "username") au);
  (destruct (dict_lookup (str "text") d) as [vtext|] eqn:Htext;
   [ rewrite (bool_decide_true (is_Some (Some vtext))) by eauto;
     destruct (dict_lookup (str "created_at") d);
     destruct (dict_lookup (str "likes_count") d);
     destruct (dict_lookup (str "retweets_count") d);
     destruct (dict_lookup (str "replies_count") d); reflexivity
   | rewrite bool_decide_false by (intros [? ?]; discriminate);
     split; reflexivity ]).
Qed.

End OneEntry.

(** X1: the mapping of lines 49-60 returns a record exactly for the entries
    that are objects with id and text whose author is absent or an object. *)
Theorem X1_mapped_iff_well_formed t :
  (exists r, reply_info t = Return r) <-> well_formed t = true.
Proof.
  pose proof (reply_info_cases t) as H. split.
  - intros [r Hr]. rewrite Hr in H. exact H.
  - intros Hwf. destruct (reply_info t) as [r|e]; [eauto|].
    destruct H as [H _]. congruence.
Qed.

(** X2: when the mapping of an entry raises, the exception is the one of the
    first item of the dict display that fails: TypeError for an entry that
    is not an object, KeyError 'id', then AttributeError for an author that
    is not an object (even when text is missing too), then KeyError
    'text'. *)
Theorem X2_mapping_error t e :
  reply_info t = Raise e -> e = mapping_error t.
Proof.
  intros He. pose proof (reply_info_cases t) as H. rewrite He in H.
  apply H.
Qed.

Lemma X2_mapping_error_witness :
  KeyError (str "id") = mapping_error tweet_no_id.
Proof. apply (X2_mapping_error tweet_no_id (KeyError (str "id"))). reflexivity. Defined.

(** X3: in a mapped record every optional field is the value found under its
    key, whatever that value is (null included); the default (null, or 0 for
    the three counters) is used only when the key is absent, and
    author_username is the username of the author object, null without
    one. *)
Theorem X3_optional_fields_verbatim d r :
  reply_info (JDict d) = Return r ->
  author_id r = default JNull (dict_lookup (str "author_id") d) /\
  author_username r = username_of d /\
  created_at r = default JNull (dict_lookup (str "created_at") d) /\
  likes (metrics r) = default (JInt 0) (dict_lookup (str "likes_count") d) /\
  retweets (metrics r)
    = default (JInt 0) (dict_lookup (str "retweets_count") d) /\
  replies (metrics r)
    = default (JInt 0) (dict_lookup (str "replies_count") d).
Proof.
  unfold reply_info, rbind, py_getitem, py_get, username_of.
  destruct (dict_lookup (str "id") d); [|discriminate].
  destruct (dict_lookup (str "author_id") d);
  destruct (dict_lookup (str "author") d) as [[| | | | | |au]|];
    try discriminate;
  try destruct (dict_lookup (str "username") au);
  (destruct (dict_lookup (str "text") d); [|discriminate]);
  destruct (dict_lookup (str "created_at") d);
  destruct (dict_lookup (str "likes_count") d);
  destruct (dict_lookup (str "retweets_count") d);
  destruct (dict_lookup (str "replies_count") d);
  intros [= <-]; repeat split; reflexivity.
Qed.

Lemma X3_optional_fields_verbatim_witness :
  let d := [(str "id", JStr (str "12")); (str "text", JStr (str "second"));
            (str "likes_count", JNull);
            (str "author", JDict [(str "username", JStr (str "bo"))])] in
  let r := {| reply_id := JStr (str "12"); author_id := JNull;
              author_username := JStr (str "bo");
              text := JStr (str "second"); created_at := JNull;
              metrics := {| likes := JNull; retweets := JInt 0;
                            replies := JInt 0 |} |} in
  author_id r = default JNull (dict_lookup (str "author_id") d) /\
  author_username r = username_of d /\
  created_at r = default JNull (dict_lookup (str "created_at") d) /\
  likes (metrics r) = default (JInt 0) (dict_lookup (str "likes_count") d) /\
  retweets (metrics r)
    = default (JInt 0) (dict_lookup (str "retweets_count") d) /\
  replies (metrics r)
    = default (JInt 0) (dict_lookup (str "replies_count") d).
Proof.
  intros d r. apply (X3_optional_fields_verbatim d r). reflexivity.
Defined.

(** ** The whole call *)

Section WholeCall.

Local Arguments str : simpl never.

Lemma has_tweets_list_tweets d tweets :
  dict_lookup (str "tweets") d = Some (JList tweets) ->
  has_tweets_list (JDict d) = Return true /\
  py_getitem (JDict d) (str "tweets") = Return (JList tweets).
Proof.
  intros H. unfold has_tweets_list, rbind, py_contains, py_getitem.
  rewrite H. rewrite bool_decide_true by eauto. split; reflexivity.
Qed.

(** The loop runs to its end exactly on well-formed arrays. *)
Lemma map_replies_returns_iff tweets :
  snd (map_replies tweets) = None <->
  Forall (fun t => well_formed t = true) tweets.
Proof.
  split.
  - induction tweets as [|t ts IH]; simpl; [constructor|].
    pose proof (reply_info_cases t) as Ht.
    destruct (reply_info t) as [r|e]; [|discriminate].
    destruct (map_replies ts) as [rs oe]; simpl in *.
    intros Hoe. constructor; [exact Ht | exact (IH Hoe)].
  - intros H. apply map_replies_well_formed. exact H.
Qed.

End WholeCall.

(** X4: for a response with a "tweets" array, get_tweet_replies returns
    exactly when every entry is an object with id and text whose author is
    absent or an object; any other entry makes the call raise. *)
Theorem X4_returns_iff_all_well_formed env tweet max_replies w tweets :
  responds_with_tweets env w tweet tweets ->
  (exists ref, fst (get_tweet_replies env tweet max_replies w) = Return ref)
  <-> Forall (fun t => well_formed t = true) tweets.
Proof.
  intros Hresp.
  destruct (get_tweet_replies_tweets env tweet max_replies w tweets Hresp)
    as [Hres _].
  rewrite Hres, <- map_replies_returns_iff.
  destruct (snd (map_replies tweets)); split; try discriminate; eauto.
  intros [ref Href]. discriminate.
Qed.

Lemma X4_returns_iff_all_well_formed_witness :
  (exists ref, fst (get_tweet_replies env_ab (str "1") 100 world0) = Return ref)
  <-> Forall (fun t => well_formed t = true) [tweet_a; tweet_b].
Proof.
  apply (X4_returns_iff_all_well_formed env_ab (str "1") 100 world0
           [tweet_a; tweet_b]).
  eexists. split; [eexists; split; reflexivity | reflexivity].
Defined.

(** X5: when the entry at index k is the first one that is not well formed,
    the call raises the exception of that entry: TypeError, KeyError 'id',
    AttributeError or KeyError 'text', in the order the dict display
    evaluates its items. *)
Theorem X5_first_bad_entry_decides env tweet max_replies w tweets k bad :
  responds_with_tweets env w tweet tweets ->
  Forall (fun t => well_formed t = true) (take k tweets) ->
  tweets !! k = Some bad ->
  well_formed bad = false ->
  fst (get_tweet_replies env tweet max_replies w) = Raise (mapping_error bad).
Proof.
  intros Hresp Hwf Hk Hbad.
  destruct (get_tweet_replies_tweets env tweet max_replies w tweets Hresp)
    as [Hres _].
  pose proof (reply_info_cases bad) as Hcase.
  destruct (reply_info bad) as [r|e] eqn:He; [congruence|].
  destruct Hcase as [_ ->].
  destruct (map_replies_stops tweets k bad _ Hwf Hk He) as [Hsnd _].
  rewrite Hres, Hsnd. reflexivity.
Qed.

Lemma X5_first_bad_entry_decides_witness :
  fst (get_tweet_replies
         (env_of Since_2_27
            (answer (tweets_doc [tweet_a; tweet_null_author; tweet_no_id])))
         (str "1") 100 world0)
  = Raise (mapping_error tweet_null_author).
Proof.
  apply (X5_first_bad_entry_decides
           (env_of Since_2_27
              (answer (tweets_doc [tweet_a; tweet_null_author; tweet_no_id])))
           (str "1") 100 world0
           [tweet_a; tweet_null_author; tweet_no_id] 1 tweet_null_author).
  - eexists. split; [eexists; split; reflexivity | reflexivity].
  - repeat constructor.
  - reflexivity.
  - reflexivity.
Defined.

(** X6: whatever the outcome, get_tweet_replies changes nothing but the
    buffer and the log: the endpoint and the headers of the instance, the
    clock and the files are as before, and the log keeps its old lines and
    gains the start line followed by the lines of this call. *)
Theorem X6_only_buffer_and_log env tweet max_replies w :
  let w' := snd (get_tweet_replies env tweet max_replies w) in
  api_url (service w') = api_url (service w) /\
  headers (service w') = headers (service w) /\
  ticks w' = ticks w /\
  files w' = files w /\
  exists lines, log w' = log w ++ InfoStart tweet :: lines.
Proof.
  rewrite get_tweet_replies_outcome.
  destruct (fetch_outcome _ _ _) as [[res rs] lines]. cbn.
  repeat split. exists lines. rewrite <- app_assoc. reflexivity.
Qed.

(** X7: the status code and the raw text of the response are logged and
    never looked at: two responses with the same parsed body give the same
    result and the same buffer, whatever their status. *)
Theorem X7_status_not_checked env1 env2 tweet max_replies w r1 r2 :
  release env1 = release env2 ->
  network env1 (fetch_request (service w) tweet) = Respond r1 ->
  network env2 (fetch_request (service w) tweet) = Respond r2 ->
  body r1 = body r2 ->
  fst (get_tweet_replies env1 tweet max_replies w)
    = fst (get_tweet_replies env2 tweet max_replies w) /\
  service (snd (get_tweet_replies env1 tweet max_replies w))
    = service (snd (get_tweet_replies env2 tweet max_replies w)).
Proof.
  intros Hrel H1 H2 Hbody.
  rewrite !get_tweet_replies_outcome, H1, H2, Hrel.
  unfold fetch_outcome, after_try. rewrite Hbody.
  destruct (body r2) as [data|].
  - destruct (has_tweets_list data) as [[|]|e].
    + destruct (py_getitem data (str "tweets")) as [tweets|e].
      * destruct (map_replies (iter_list tweets)) as [rs [e|]].
        -- destruct (is_RequestException (release env2) e);
             split; reflexivity.
        -- split; reflexivity.
      * destruct (is_RequestException (release env2) e); split; reflexivity.
    + split; reflexivity.
    + destruct (is_RequestException (release env2) e); split; reflexivity.
  - destruct (is_RequestException (release env2) JSONDecodeError);
      split; reflexivity.
Qed.

Lemma X7_status_not_checked_witness :
  fst (get_tweet_replies
         (env_of Since_2_27 (answer_with_status 200 (tweets_doc [tweet_a])))
         (str "1") 100 world0)
    = fst (get_tweet_replies
             (env_of Since_2_27 (answer_with_status 500 (tweets_doc [tweet_a])))
             (str "1") 100 world0) /\
  service (snd (get_tweet_replies
         (env_of Since_2_27 (answer_with_status 200 (tweets_doc [tweet_a])))
         (str "1") 100 world0))
    = service (snd (get_tweet_replies
             (env_of Since_2_27 (answer_with_status 500 (tweets_doc [tweet_a])))
             (str "1") 100 world0)).
Proof.
  apply (X7_status_not_checked
           (env_of Since_2_27 (answer_with_status 200 (tweets_doc [tweet_a])))
           (env_of Since_2_27 (answer_with_status 500 (tweets_doc [tweet_a])))
           (str "1") 100 world0
           {| status_code := 200;
              resp_text := json_dumps (tweets_doc [tweet_a]);
              body := Some (tweets_doc [tweet_a]) |}
           {| status_code := 500;
              resp_text := json_dumps (tweets_doc [tweet_a]);
              body := Some (tweets_doc [tweet_a]) |});
    reflexivity.
Defined.

(** X8: a call does not depend on what earlier calls left behind: on two
    worlds whose instances have the same endpoint and headers, whatever
    their buffers, logs, clocks and files, it returns the same value and
    leaves the same instance. *)
Theorem X8_history_independent env tweet max_replies w1 w2 :
  api_url (service w1) = api_url (service w2) ->
  headers (service w1) = headers (service w2) ->
  fst (get_tweet_replies env tweet max_replies w1)
    = fst (get_tweet_replies env tweet max_replies w2) /\
  service (snd (get_tweet_replies env tweet max_replies w1))
    = service (snd (get_tweet_replies env tweet max_replies w2)).
Proof.
  intros Hurl Hhdr. rewrite !get_tweet_replies_outcome.
  unfold fetch_request. rewrite Hurl, Hhdr.
  destruct (fetch_outcome _ _ _) as [[res rs] lines]. split; reflexivity.
Qed.

Lemma X8_history_independent_witness :
  fst (get_tweet_replies
         (env_of Since_2_27 (answer (tweets_doc [tweet_b])))
         (str "2") 100 world0)
    = fst (get_tweet_replies
             (env_of Since_2_27 (answer (tweets_doc [tweet_b])))
             (str "2") 100 world_after_ab) /\
  service (snd (get_tweet_replies
         (env_of Since_2_27 (answer (tweets_doc [tweet_b])))
         (str "2") 100 world0))
    = service (snd (get_tweet_replies
             (env_of Since_2_27 (answer (tweets_doc [tweet_b])))
             (str "2") 100 world_after_ab)).
Proof.
  apply (X8_history_independent
           (env_of Since_2_27 (answer (tweets_doc [tweet_b])))
           (str "2") 100 world0 world_after_ab); reflexivity.
Defined.

(** A call answered with a JSON body returns the buffer itself, if it
    returns. *)
Lemma returns_buffer env tweet max_replies w r data ref :
  network env (fetch_request (service w) tweet) = Respond r ->
  body r = Some data ->
  fst (get_tweet_replies env tweet max_replies w) = Return ref ->
  ref = SelfReplies.
Proof.
  intros Hnet Hbody. rewrite get_tweet_replies_outcome, Hnet.
  unfold fetch_outcome, after_try. rewrite Hbody.
  pose proof (map_replies_raises (release env)) as Hmap.
  destruct (has_tweets_list data) as [[|]|e] eqn:Hcond.
  - destruct (py_getitem data (str "tweets")) as [tweets|e] eqn:Htw.
    + specialize (Hmap (iter_list tweets)).
      destruct (map_replies (iter_list tweets)) as [rs [e|]]; cbn in *.
      * rewrite (Hmap e eq_refl). discriminate.
      * congruence.
    + unfold has_tweets_list, rbind in Hcond. rewrite Htw in Hcond.
      destruct (py_contains _ data) as [[|]|]; discriminate.
  - cbn. congruence.
  - assert (He : is_RequestException (release env) e = false).
    { unfold has_tweets_list, rbind, py_contains, py_getitem in Hcond.
      destruct data as [| | | |s|l|d];
        try (injection Hcond as <-; reflexivity).
      - destruct (str_contains _ s); [|discriminate].
        injection Hcond as <-. reflexivity.
      - destruct (existsb _ l); [|discriminate].
        injection Hcond as <-. reflexivity.
      - destruct (bool_decide _); [|discriminate].
        destruct (dict_lookup _ d); [discriminate|].
        injection Hcond as <-. reflexivity. }
    rewrite He. cbn. discriminate.
Qed.

(** X9: the list returned by a call that was answered with a JSON body is the
    instance buffer, not a copy: after any later call on the same instance,
    the list returned earlier holds the records of the later call. *)
Theorem X9_returned_list_is_shared env tweet max_replies w r data ref :
  network env (fetch_request (service w) tweet) = Respond r ->
  body r = Some data ->
  fst (get_tweet_replies env tweet max_replies w) = Return ref ->
  forall env' tweet' max_replies',
    deref (snd (get_tweet_replies env' tweet' max_replies'
                  (snd (get_tweet_replies env tweet max_replies w)))) ref
    = buffer (snd (get_tweet_replies env' tweet' max_replies'
                     (snd (get_tweet_replies env tweet max_replies w)))).
Proof.
  intros Hnet Hbody Href env' tweet' m'.
  rewrite (returns_buffer _ _ _ _ _ _ _ Hnet Hbody Href). reflexivity.
Qed.

Lemma X9_returned_list_is_shared_witness :
  deref (snd (get_tweet_replies
                (env_of Since_2_27 (answer (tweets_doc [tweet_b])))
                (str "2") 100
                (snd (get_tweet_replies env_ab (str "1") 100 world0))))
    SelfReplies
  = buffer (snd (get_tweet_replies
                   (env_of Since_2_27 (answer (tweets_doc [tweet_b])))
                   (str "2") 100
                   (snd (get_tweet_replies env_ab (str "1") 100 world0)))).
Proof.
  apply (X9_returned_list_is_shared env_ab (str "1") 100 world0
           {| status_code := 200;
              resp_text := json_dumps (tweets_doc [tweet_a; tweet_b]);
              body := Some (tweets_doc [tweet_a; tweet_b]) |}
           (tweets_doc [tweet_a; tweet_b]) SelfReplies);
    reflexivity.
Defined.

(** X10: a Fetch Result built from a JSON answer keeps the count it was given
    but shares its list with the instance: once a later call on the same
    instance fails at the network, the list under "replies" is empty while
    total_replies_fetched still has the old count. *)
Theorem X10_fetch_result_goes_stale env tweet max_replies w r data result w1 :
  network env (fetch_request (service w) tweet) = Respond r ->
  body r = Some data ->
  get_replies_with_metadata env tweet max_replies w = (Return result, w1) ->
  total_replies_fetched result = length (buffer w1) /\
  forall env' tweet' max_replies' k,
    network env' (fetch_request (service w1) tweet') = RequestFails k ->
    deref (snd (get_tweet_replies env' tweet' max_replies' w1))
      (fetched_replies result) = [].
Proof.
  intros Hnet Hbody. rewrite get_replies_with_metadata_unfold.
  pose proof (returns_buffer env tweet max_replies w r data) as Hret.
  destruct (get_tweet_replies env tweet max_replies w) as [[ref|e] w'];
    [|discriminate].
  specialize (Hret ref Hnet Hbody eq_refl). subst ref.
  intros [= <- <-]. split; [reflexivity|].
  intros env' tweet' m' k Hfail.
  rewrite get_tweet_replies_outcome, Hfail. reflexivity.
Qed.

Lemma X10_fetch_result_goes_stale_witness :
  total_replies_fetched
    {| tweet_id := str "1"; total_replies_fetched := 2;
       fetch_timestamp := isoformat noon; fetched_replies := SelfReplies |}
    = length (buffer (snd (get_replies_with_metadata env_ab (str "1") 100
                             world0))) /\
  forall env' tweet' max_replies' k,
    network env'
      (fetch_request
         (service (snd (get_replies_with_metadata env_ab (str "1") 100 world0)))
         tweet') = RequestFails k ->
    deref (snd (get_tweet_replies env' tweet' max_replies'
                  (snd (get_replies_with_metadata env_ab (str "1") 100 world0))))
      (fetched_replies
         {| tweet_id := str "1"; total_replies_fetched := 2;
            fetch_timestamp := isoformat noon;
            fetched_replies := SelfReplies |}) = [].
Proof.
  apply (X10_fetch_result_goes_stale env_ab (str "1") 100 world0
           {| status_code := 200;
              resp_text := json_dumps (tweets_doc [tweet_a; tweet_b]);
              body := Some (tweets_doc [tweet_a; tweet_b]) |}
           (tweets_doc [tweet_a; tweet_b])); reflexivity.
Defined.

(** ** What is logged *)

(** X11: a call that maps a whole "tweets" array adds exactly four lines to
    the log: the start, the status code, the raw text, and the completion
    line, whose count is the number of entries of the array (0 for an empty
    array, which is not reported as "no replies"). *)
Theorem X11_log_of_a_successful_call env tweet max_replies w r d tweets :
  network env (fetch_request (service w) tweet) = Respond r ->
  body r = Some (JDict d) ->
  dict_lookup (str "tweets") d = Some (JList tweets) ->
  Forall (fun t => well_formed t = true) tweets ->
  log (snd (get_tweet_replies env tweet max_replies w))
  = log w ++ [InfoStart tweet; InfoStatus (status_code r);
              InfoContent (resp_text r);
              InfoFetched (length tweets) tweet].
Proof.
  intros Hnet Hbody Htw Hwf.
  rewrite get_tweet_replies_outcome, Hnet. unfold fetch_outcome.
  rewrite Hbody.
  destruct (has_tweets_list_tweets d tweets Htw) as [-> ->].
  cbn [iter_list].
  destruct (map_replies_well_formed tweets Hwf) as [Hnone Hall].
  apply Forall2_length in Hall.
  destruct (map_replies tweets) as [rs oe]. cbn [fst snd] in *. subst oe.
  cbn [log]. rewrite <- Hall, <- app_assoc. reflexivity.
Qed.

Lemma X11_log_of_a_successful_call_witness :
  log (snd (get_tweet_replies
              (env_of Since_2_27 (answer (tweets_doc [])))
              (str "1") 100 world0))
  = log world0 ++ [InfoStart (str "1"); InfoStatus 200;
                   InfoContent (json_dumps (tweets_doc []));
                   InfoFetched (length (@nil json)) (str "1")].
Proof.
  apply (X11_log_of_a_successful_call
           (env_of Since_2_27 (answer (tweets_doc [])))
           (str "1") 100 world0
           {| status_code := 200; resp_text := json_dumps (tweets_doc []);
              body := Some (tweets_doc []) |}
           [(str "tweets", JList [])] []).
  - reflexivity.
  - reflexivity.
  - reflexivity.
  - constructor.
Defined.

(** X12: a request that fails at the network still costs the instance its
    records: the buffer was cleared before the request and stays empty, and
    the log gains the start line and one error line naming the exception. *)
Theorem X12_failed_request_clears_buffer env tweet max_replies w k :
  network env (fetch_request (service w) tweet) = RequestFails k ->
  buffer (snd (get_tweet_replies env tweet max_replies w)) = [] /\
  log (snd (get_tweet_replies env tweet max_replies w))
  = log w ++ [InfoStart tweet; ErrorRequestFailed tweet (RequestError k)].
Proof.
  intros Hnet. rewrite get_tweet_replies_outcome, Hnet.
  cbn. rewrite <- app_assoc. split; reflexivity.
Qed.

Lemma X12_failed_request_clears_buffer_witness :
  buffer (snd (get_tweet_replies (env_of Since_2_27 (RequestFails Timeout))
                 (str "1") 100 world_after_ab)) = [] /\
  log (snd (get_tweet_replies (env_of Since_2_27 (RequestFails Timeout))
              (str "1") 100 world_after_ab))
  = log world_after_ab
    ++ [InfoStart (str "1");
        ErrorRequestFailed (str "1") (RequestError Timeout)].
Proof.
  apply (X12_failed_request_clears_buffer
           (env_of Since_2_27 (RequestFails Timeout)) (str "1") 100
           world_after_ab Timeout).
  reflexivity.
Defined.

(** ** get_replies_with_metadata *)

(** X13: the Fetch Result echoes the post id it was asked for and is stamped
    with one reading of the clock, taken after the fetch; the files are not
    touched.  When the fetch raises, the clock is not read at all. *)
Theorem X13_metadata_fields env tweet max_replies w :
  match get_replies_with_metadata env tweet max_replies w with
  | (Return result, w') =>
      tweet_id result = tweet /\
      fetch_timestamp result = isoformat (clock env (ticks w)) /\
      ticks w' = S (ticks w) /\
      files w' = files w
  | (Raise e, w') =>
      fst (get_tweet_replies env tweet max_replies w) = Raise e /\
      ticks w' = ticks w /\
      files w' = files w
  end.
Proof.
  rewrite get_replies_with_metadata_unfold, get_tweet_replies_outcome.
  destruct (fetch_outcome _ _ _) as [[[ref|e] rs] lines]; cbn; auto.
Qed.


(** The call in full: the Fetch Result and the world it leaves. *)
Lemma get_replies_with_metadata_outcome env tweet max_replies w :
  get_replies_with_metadata env tweet max_replies w =
  let '(res, rs, lines) :=
    fetch_outcome (release env) tweet
      (network env (fetch_request (service w) tweet)) in
  let w' := {| service := {| api_url := api_url (service w);
                             headers := headers (service w);
                             self_replies := rs |};
               log := (log w ++ [InfoStart tweet]) ++ lines;
               ticks := ticks w;
               files := files w |} in
  match res with
  | Return ref =>
      (Return {| tweet_id := tweet;
                 total_replies_fetched := length (deref w' ref);
                 fetch_timestamp := isoformat (clock env (ticks w));
                 fetched_replies := ref |},
       tick w')
  | Raise e => (Raise e, w')
  end.
Proof.
  rewrite get_replies_with_metadata_unfold, get_tweet_replies_outcome.
  destruct (fetch_outcome _ _ _) as [[[ref|e] rs] lines]; reflexivity.
Qed.

(** X14: a network failure is indistinguishable, in the Fetch Result, from a
    post without replies: at the same clock reading the document built after
    a failed request equals the one built from an empty "tweets" array. *)
Theorem X14_failure_looks_like_no_replies
    env1 env2 tweet max_replies w k :
  network env1 (fetch_request (service w) tweet) = RequestFails k ->
  responds_with_tweets env2 w tweet [] ->
  clock env1 (ticks w) = clock env2 (ticks w) ->
  exists result1 w1 result2 w2,
    get_replies_with_metadata env1 tweet max_replies w = (Return result1, w1) /\
    get_replies_with_metadata env2 tweet max_replies w = (Return result2, w2) /\
    json_of_result w1 result1 = json_of_result w2 result2.
Proof.
  intros Hfail (d & (r & Hnet & Hbody) & Htw) Hclock.
  rewrite !get_replies_with_metadata_outcome, Hfail, Hnet.
  unfold fetch_outcome. rewrite Hbody.
  destruct (has_tweets_list_tweets d [] Htw) as [-> ->].
  cbn [after_try is_RequestException iter_list map_replies].
  eexists _, _, _, _. split; [reflexivity|]. split; [reflexivity|].
  unfold json_of_result. cbn. rewrite Hclock. reflexivity.
Qed.

Lemma X14_failure_looks_like_no_replies_witness :
  exists result1 w1 result2 w2,
    get_replies_with_metadata (env_of Since_2_27 (RequestFails ConnectionError))
      (str "1") 100 world0 = (Return result1, w1) /\
    get_replies_with_metadata (env_of Since_2_27 (answer (tweets_doc [])))
      (str "1") 100 world0 = (Return result2, w2) /\
    json_of_result w1 result1 = json_of_result w2 result2.
Proof.
  apply (X14_failure_looks_like_no_replies
           (env_of Since_2_27 (RequestFails ConnectionError))
           (env_of Since_2_27 (answer (tweets_doc [])))
           (str "1") 100 world0 ConnectionError).
  - reflexivity.
  - eexists. split; [eexists; split; reflexivity | reflexivity].
  - reflexivity.
Defined.

(** ** save_replies_to_file in every case *)

(** The call, outcome by outcome. *)
Lemma save_replies_to_file_unfold env tweet filename max_replies w :
  save_replies_to_file env tweet filename max_replies w =
  let name := save_path env tweet filename w in
  match get_replies_with_metadata env tweet max_replies
          (save_start filename w) with
  | (Return result, w1) =>
      if can_open env name
      then
        let text := json_dumps (json_of_result w1 result) in
        match write_text env name text with
        | WriteCompletes =>
            (Return name,
             {| service := service w1;
                log := log w1 ++ [InfoSaved name];
                ticks := ticks w1;
                files := <[name := text]> (files w1) |})
        | WriteFails e reached =>
            (Raise e,
             {| service := service w1;
                log := log w1;
                ticks := ticks w1;
                files := <[name := take reached text]> (files w1) |})
        end
      else (Raise OSError, w1)
  | (Raise e, w1) => (Raise e, w1)
  end.
Proof.
  unfold save_replies_to_file, bind, datetime_now, ret, dump_to_file, logging,
    save_path, save_start.
  destruct filename as [name|];
    (destruct (get_replies_with_metadata env tweet max_replies _)
       as [[result|e] w1]; [|reflexivity]);
    (destruct (can_open env _); [|reflexivity]);
    cbv zeta; destruct (write_text env _ _); reflexivity.
Qed.

(** The clock and the files after get_replies_with_metadata. *)
Lemma get_replies_with_metadata_frame env tweet max_replies w :
  let out := get_replies_with_metadata env tweet max_replies w in
  files (snd out) = files w /\
  ticks (snd out) = match fst out with
                    | Return _ => S (ticks w)
                    | Raise _ => ticks w
                    end.
Proof.
  cbv zeta. rewrite get_replies_with_metadata_outcome.
  destruct (fetch_outcome _ _ _) as [[[ref|e] rs] lines]; split; reflexivity.
Qed.

(** Reading the clock for the name changes neither the files nor the
    instance. *)
Lemma save_start_frame filename w :
  files (save_start filename w) = files w /\
  service (save_start filename w) = service w.
Proof. destruct filename; split; reflexivity. Qed.

(** X15: a file name given by the caller is used as it is.  When the fetch
    returns, the file can be opened and the write completes, the call returns
    that name, the file holds the dump of the Fetch Result in place of
    whatever it held, every other file is as before, and the clock was read
    once. *)
Theorem X15_given_filename env tweet name max_replies w result w1 :
  get_replies_with_metadata env tweet max_replies w = (Return result, w1) ->
  can_open env name = true ->
  write_text env name (json_dumps (json_of_result w1 result))
    = WriteCompletes ->
  exists w2,
    save_replies_to_file env tweet (Some name) max_replies w
      = (Return name, w2) /\
    files w2 = <[name := json_dumps (json_of_result w1 result)]> (files w) /\
    (forall other, other <> name -> files w2 !! other = files w !! other) /\
    ticks w2 = S (ticks w).
Proof.
  intros Hmeta Hopen Hwrite.
  pose proof (get_replies_with_metadata_frame env tweet max_replies w)
    as [Hfiles Hticks].
  rewrite save_replies_to_file_unfold. cbv zeta.
  cbn [save_path save_start]. rewrite Hmeta in *.
  rewrite Hopen, Hwrite. cbn [fst snd] in *.
  eexists. split; [reflexivity|]. cbn [files ticks].
  rewrite Hfiles, Hticks. repeat split.
  intros other Hne. apply lookup_insert_ne. congruence.
Qed.

Lemma X15_given_filename_witness :
  exists w2,
    save_replies_to_file env_ab (str "1") (Some (str "out.json")) 100 world0
      = (Return (str "out.json"), w2) /\
    files w2
      = <[str "out.json" :=
            json_dumps
              (json_of_result
                 (snd (get_replies_with_metadata env_ab (str "1") 100 world0))
                 {| tweet_id := str "1"; total_replies_fetched := 2;
                    fetch_timestamp := isoformat noon;
                    fetched_replies := SelfReplies |})]> (files world0) /\
    (forall other, other <> str "out.json" ->
       files w2 !! other = files world0 !! other) /\
    ticks w2 = S (ticks world0).
Proof.
  apply (X15_given_filename env_ab (str "1") (str "out.json") 100 world0);
    reflexivity.
Defined.

(** X16: a save that raises changes no file but the one it was to write,
    and that one only once it has been opened.  Either every file is as it
    was (the fetch raised, or the file could not be opened), or the write
    failed after the file had been opened: then the exception is the one of
    the write and the file holds the part of the dump that was written, in
    place of whatever it held. *)
Theorem X16_failed_save_leaves_at_most_a_prefix
    env tweet filename max_replies w e :
  fst (save_replies_to_file env tweet filename max_replies w) = Raise e ->
  (forall other,
     other <> save_path env tweet filename w ->
     files (snd (save_replies_to_file env tweet filename max_replies w))
       !! other = files w !! other) /\
  (files (snd (save_replies_to_file env tweet filename max_replies w))
   = files w \/
   exists result w1 reached,
     get_replies_with_metadata env tweet max_replies (save_start filename w)
       = (Return result, w1) /\
     can_open env (save_path env tweet filename w) = true /\
     write_text env (save_path env tweet filename w)
       (json_dumps (json_of_result w1 result)) = WriteFails e reached /\
     files (snd (save_replies_to_file env tweet filename max_replies w))
     = <[save_path env tweet filename w :=
           take reached (json_dumps (json_of_result w1 result))]> (files w)).
Proof.
  rewrite save_replies_to_file_unfold. cbv zeta.
  pose proof (get_replies_with_metadata_frame env tweet max_replies
                (save_start filename w)) as [Hfiles _].
  rewrite (proj1 (save_start_frame filename w)) in Hfiles.
  destruct (get_replies_with_metadata env tweet max_replies
              (save_start filename w)) as [[result|e'] w1];
    cbn [fst snd] in *.
  2:{ intros _. rewrite Hfiles. split; [reflexivity | left; reflexivity]. }
  destruct (can_open env _) eqn:Hopen.
  2:{ intros _. cbn [snd]. rewrite Hfiles.
      split; [reflexivity | left; reflexivity]. }
  destruct (write_text env _ _) as [|e' reached] eqn:Hwrite;
    [discriminate|].
  cbn [fst snd files]. intros [= ->]. rewrite Hfiles. split.
  - intros other Hne. apply lookup_insert_ne. congruence.
  - right. exists result, w1, reached. repeat split; assumption.
Qed.

Lemma X16_failed_save_leaves_at_most_a_prefix_witness :
  (forall other,
     other <> save_path env_disk_full (str "1") None world0 ->
     files (snd (save_replies_to_file env_disk_full (str "1") None 100 world0))
       !! other = files world0 !! other) /\
  (files (snd (save_replies_to_file env_disk_full (str "1") None 100 world0))
   = files world0 \/
   exists result w1 reached,
     get_replies_with_metadata env_disk_full (str "1") 100
       (save_start None world0) = (Return result, w1) /\
     can_open env_disk_full (save_path env_disk_full (str "1") None world0)
       = true /\
     write_text env_disk_full (save_path env_disk_full (str "1") None world0)
       (json_dumps (json_of_result w1 result)) = WriteFails OSError reached /\
     files (snd (save_replies_to_file env_disk_full (str "1") None 100 world0))
     = <[save_path env_disk_full (str "1") None world0 :=
           take reached (json_dumps (json_of_result w1 result))]>
         (files world0)).
Proof.
  apply (X16_failed_save_leaves_at_most_a_prefix
           env_disk_full (str "1") None 100 world0 OSError).
  reflexivity.
Defined.

(** X17: without a file name the clock is read twice, and in this order:
    first for the name of the file, before the request is made, then for
    fetch_timestamp, after the fetch has returned. *)
Theorem X17_two_clock_readings env tweet max_replies w path w2 :
  save_replies_to_file env tweet None max_replies w = (Return path, w2) ->
  path = generated_filename tweet (clock env (ticks w)) /\
  ticks w2 = S (S (ticks w)) /\
  exists result w1,
    get_replies_with_metadata env tweet max_replies (tick w)
      = (Return result, w1) /\
    fetch_timestamp result = isoformat (clock env (S (ticks w))) /\
    files w2 !! path = Some (json_dumps (json_of_result w1 result)).
Proof.
  rewrite save_replies_to_file_unfold. cbv zeta.
  cbn [save_path save_start].
  pose proof (get_replies_with_metadata_frame env tweet max_replies (tick w))
    as [_ Hticks].
  pose proof (Hfields := get_replies_with_metadata_outcome
                           env tweet max_replies (tick w)).
  destruct (get_replies_with_metadata env tweet max_replies (tick w))
    as [[result|e] w1]; [|discriminate].
  destruct (can_open env _); [|discriminate].
  destruct (write_text env _ _); [|discriminate].
  intros [= <- <-]. cbn [fst snd ticks files] in *.
  split; [reflexivity|]. split; [exact Hticks|].
  exists result, w1. split; [reflexivity|].
  split; [|apply lookup_insert_eq].
  destruct (fetch_outcome _ _ _) as [[[ref|e] rs] lines];
    [|discriminate].
  injection Hfields as -> _. reflexivity.
Qed.

Lemma X17_two_clock_readings_witness :
  str "replies_to_1_20250321_120005.json"
    = generated_filename (str "1") (clock env_ab (ticks world0)) /\
  ticks (snd (save_replies_to_file env_ab (str "1") None 100 world0))
    = S (S (ticks world0)) /\
  exists result w1,
    get_replies_with_metadata env_ab (str "1") 100 (tick world0)
      = (Return result, w1) /\
    fetch_timestamp result = isoformat (clock env_ab (S (ticks world0))) /\
    files (snd (save_replies_to_file env_ab (str "1") None 100 world0))
      !! str "replies_to_1_20250321_120005.json"
    = Some (json_dumps (json_of_result w1 result)).
Proof.
  apply (X17_two_clock_readings env_ab (str "1") 100 world0
           (str "replies_to_1_20250321_120005.json")
           (snd (save_replies_to_file env_ab (str "1") None 100 world0))).
  reflexivity.
Defined.

(** X18: the saved file keeps the count in step with the list: read back
    with json.load, it is an object whose "tweet_id" is the post id asked for
    and whose "total_replies_fetched" is the number of items under
    "replies". *)
Theorem X18_saved_count_matches env tweet filename max_replies w path w2 :
  str_ok tweet = true ->
  answers_ok env tweet w ->
  save_replies_to_file env tweet filename max_replies w = (Return path, w2) ->
  exists content doc items,
    files w2 !! path = Some content /\
    json_loads content = Some (JDict doc) /\
    dict_lookup (str "tweet_id") doc = Some (JStr tweet) /\
    dict_lookup (str "replies") doc = Some (JList items) /\
    dict_lookup (str "total_replies_fetched") doc
      = Some (JInt (Z.of_nat (length items))).
Proof.
  intros Htweet Hok. rewrite save_replies_to_file_unfold. cbv zeta.
  assert (Hok0 : answers_ok env tweet (save_start filename w))
    by (destruct filename; exact Hok).
  pose proof (fetch_result_ok env tweet max_replies (save_start filename w))
    as Hdoc.
  pose proof (get_replies_with_metadata_outcome env tweet max_replies
                (save_start filename w)) as Hout.
  destruct (get_replies_with_metadata env tweet max_replies
              (save_start filename w)) as [[result|e] w1]; [|discriminate].
  specialize (Hdoc result w1 Htweet Hok0 eq_refl).
  destruct (can_open env _); [|discriminate].
  destruct (write_text env _ _); [|discriminate].
  intros [= <- <-]. cbn [files].
  destruct (fetch_outcome _ _ _) as [[[ref|e] rs] lines]; [|discriminate].
  injection Hout as -> ->.
  eexists _, _, _. split; [apply lookup_insert_eq|].
  split; [apply json_loads_dumps, Hdoc|].
  cbn [tweet_id fetched_replies total_replies_fetched].
  split; [reflexivity|]. split; [reflexivity|].
  rewrite length_map. reflexivity.
Qed.

Lemma X18_saved_count_matches_witness :
  exists content doc items,
    files (snd (save_replies_to_file env_ab (str "1") None 100 world0))
      !! str "replies_to_1_20250321_120005.json" = Some content /\
    json_loads content = Some (JDict doc) /\
    dict_lookup (str "tweet_id") doc = Some (JStr (str "1")) /\
    dict_lookup (str "replies") doc = Some (JList items) /\
    dict_lookup (str "total_replies_fetched") doc
      = Some (JInt (Z.of_nat (length items))).
Proof.
  apply (X18_saved_count_matches env_ab (str "1") None 100 world0
           (str "replies_to_1_20250321_120005.json")
           (snd (save_replies_to_file env_ab (str "1") None 100 world0))).
  - reflexivity.
  - intros r data [= <-] [= <-]. reflexivity.
  - reflexivity.
Defined.

(** X19: the swallowed network failure reaches the disk, with or without a
    file name: when the request fails at the network, the file can be opened
    and the write completes, save_replies_to_file raises nothing, returns
    the name of the file and leaves in it a document that reports zero
    replies and an empty list. *)
Theorem X19_failed_fetch_is_saved_as_empty
    env tweet filename max_replies w k :
  network env (fetch_request (service w) tweet) = RequestFails k ->
  can_open env (save_path env tweet filename w) = true ->
  write_text env (save_path env tweet filename w)
    (json_dumps
       (empty_document tweet (clock env (ticks (save_start filename w)))))
    = WriteCompletes ->
  exists w2,
    save_replies_to_file env tweet filename max_replies w
      = (Return (save_path env tweet filename w), w2) /\
    files w2 !! save_path env tweet filename w
    = Some (json_dumps
              (empty_document tweet
                 (clock env (ticks (save_start filename w))))).
Proof.
  intros Hfail Hopen Hwrite.
  rewrite save_replies_to_file_unfold. cbv zeta.
  rewrite get_replies_with_metadata_outcome.
  rewrite (proj2 (save_start_frame filename w)), Hfail.
  cbn [fetch_outcome after_try is_RequestException]. cbv zeta.
  rewrite Hopen.
  change (json_of_result _ _)
    with (empty_document tweet (clock env (ticks (save_start filename w)))).
  rewrite Hwrite. eexists. split; [reflexivity|].
  cbn [files]. apply lookup_insert_eq.
Qed.

Lemma X19_failed_fetch_is_saved_as_empty_witness :
  exists w2,
    save_replies_to_file (env_of Since_2_27 (RequestFails Timeout))
      (str "1") None 100 world0
      = (Return (str "replies_to_1_20250321_120005.json"), w2) /\
    files w2 !! str "replies_to_1_20250321_120005.json"
    = Some (json_dumps (empty_document (str "1") noon)).
Proof.
  apply (X19_failed_fetch_is_saved_as_empty
           (env_of Since_2_27 (RequestFails Timeout))
           (str "1") None 100 world0 Timeout); reflexivity.
Defined.

(** ** The smoke test *)

(** X20: the routine announces its operations in order and ends with exactly
    one closing line, an error or the name of the saved file: an error stops
    it, nothing is announced or printed after it.  It changes no file but
    the generated one, and none at all unless the third operation was
    announced.  When the closing line names the saved file, all three
    operations were announced and the file holds the whole dump of a Fetch
    Result for the post id of line 106. *)
Theorem X20_smoke_test_outcomes getenv env net1 net2 net3 w :
  let run := test_tweet_replies_fetch getenv env net1 net2 net3 w in
  let target := generated_filename test_tweet_id (clock env (S (ticks w))) in
  exists lines closing,
    fst run = lines ++ [closing] /\
    Forall (fun p => is_closing p = false) lines /\
    (exists n, (1 <= n <= 3)%nat /\ announced lines = take n operations) /\
    (forall other, other <> target ->
       files (snd run) !! other = files w !! other) /\
    match closing with
    | PrintError e =>
        announced lines <> operations -> files (snd run) = files w
    | PrintSaved output_file =>
        output_file = target /\
        announced lines = operations /\
        exists document,
          files (snd run) !! target = Some (json_dumps (JDict document)) /\
          dict_lookup (str "tweet_id") document = Some (JStr test_tweet_id)
    | _ => False
    end.
Proof.
  cbv zeta. unfold test_tweet_replies_fetch. cbv zeta.
  set (w0 := {| service := init getenv; log := log w; ticks := ticks w;
                files := files w |}).
  pose proof (get_tweet_replies_outcome (with_network env net1)
                test_tweet_id 5 w0) as H1.
  destruct (get_tweet_replies (with_network env net1) test_tweet_id 5 w0)
    as [[replies|e] w1].
  2:{ destruct (fetch_outcome _ _ _) as [[res rs] lines].
      injection H1 as _ ->. cbn [fst snd files].
      eexists [_], _. split; [reflexivity|].
      split; [repeat constructor|].
      split; [exists 1%nat; split; [lia | reflexivity]|].
      split; [reflexivity|]. intros _. reflexivity. }
  assert (Hw1 : files w1 = files w /\ ticks w1 = ticks w).
  { destruct (fetch_outcome _ _ _) as [[res rs] lines].
    injection H1 as _ ->. split; reflexivity. }
  destruct Hw1 as [Hf1 Ht1]. clear H1.
  pose proof (get_replies_with_metadata_frame (with_network env net2)
                test_tweet_id 5 w1) as [Hf2 Ht2].
  destruct (get_replies_with_metadata (with_network env net2)
              test_tweet_id 5 w1) as [[meta|e] w2]; cbn [fst snd] in *.
  2:{ eexists [_; _; _], _. split; [reflexivity|].
      split; [repeat constructor|].
      split; [exists 2%nat; split; [lia | reflexivity]|].
      rewrite Hf2, Hf1. split; [reflexivity|]. intros _. reflexivity. }
  pose proof (save_replies_to_file_unfold (with_network env net3)
                test_tweet_id None 5 w2) as H3.
  cbv zeta in H3. cbn [save_path save_start with_network clock] in H3.
  rewrite Ht2, Ht1 in H3.
  pose proof (get_replies_with_metadata_frame (with_network env net3)
                test_tweet_id 5 (tick w2)) as [Hf3 _].
  change (files (tick w2)) with (files w2) in Hf3.
  pose proof (get_replies_with_metadata_outcome (with_network env net3)
                test_tweet_id 5 (tick w2)) as Hout.
  assert (Hlines :
    exists n, (1 <= n <= 3)%nat /\
      announced [PrintTesting (str "get_tweet_replies");
                 PrintFetched (length (deref w1 replies));
                 PrintTesting (str "get_replies_with_metadata");
                 PrintMetadata (json_of_result w2 meta);
                 PrintTesting (str "save_replies_to_file")]
      = take n operations)
    by (exists 3%nat; split; [lia | reflexivity]).
  destruct (save_replies_to_file (with_network env net3)
              test_tweet_id None 5 w2) as [[output_file|e] w3];
    cbn [fst snd].
  - eexists [_; _; _; _; _], _. split; [reflexivity|].
    split; [repeat constructor|]. split; [exact Hlines|].
    destruct (get_replies_with_metadata (with_network env net3)
                test_tweet_id 5 (tick w2)) as [[result|e] w2'];
      [|discriminate].
    destruct (can_open _ _); [|discriminate].
    destruct (write_text _ _ _); [|discriminate].
    injection H3 as -> ->. cbn [files fst snd] in *.
    rewrite Hf3, Hf2, Hf1. split.
    { intros other Hne. apply lookup_insert_ne. congruence. }
    split; [reflexivity|]. split; [reflexivity|].
    destruct (fetch_outcome _ _ _) as [[[ref|e] rs] lines];
      [|discriminate].
    injection Hout as -> _.
    eexists. split; [apply lookup_insert_eq | reflexivity].
  - eexists [_; _; _; _; _], _. split; [reflexivity|].
    split; [repeat constructor|]. split; [exact Hlines|].
    split; [|intros Hne; exfalso; apply Hne; reflexivity].
    destruct (get_replies_with_metadata (with_network env net3)
                test_tweet_id 5 (tick w2)) as [[result|e'] w2'].
    + destruct (can_open _ _).
      * destruct (write_text _ _ _); [discriminate|].
        injection H3 as _ ->. cbn [fst snd files] in *.
        rewrite Hf3, Hf2, Hf1.
        intros other Hne. apply lookup_insert_ne. congruence.
      * injection H3 as _ ->. cbn [fst snd files] in *.
        rewrite Hf3, Hf2, Hf1. reflexivity.
    + injection H3 as _ ->. cbn [fst snd files] in *.
      rewrite Hf3, Hf2, Hf1. reflexivity.
Qed.

(** X21: with the network down for all three requests the routine prints no
    error: it reports 0 replies and prints a Fetch Result with a count of 0
    and an empty list; if the generated file can be opened and the write
    completes, it closes with the name of that file, which holds a document
    with a count of 0 and an empty list, every other file being as
    before. *)
Theorem X21_smoke_test_offline getenv env k1 k2 k3 w :
  can_open env (generated_filename test_tweet_id (clock env (S (ticks w))))
    = true ->
  write_text env
    (generated_filename test_tweet_id (clock env (S (ticks w))))
    (json_dumps (empty_document test_tweet_id (clock env (S (S (ticks w))))))
    = WriteCompletes ->
  fst (test_tweet_replies_fetch getenv env
         (offline k1) (offline k2) (offline k3) w)
  = [PrintTesting (str "get_tweet_replies");
     PrintFetched 0;
     PrintTesting (str "get_replies_with_metadata");
     PrintMetadata (empty_document test_tweet_id (clock env (ticks w)));
     PrintTesting (str "save_replies_to_file");
     PrintSaved (generated_filename test_tweet_id (clock env (S (ticks w))))]
  /\
  files (snd (test_tweet_replies_fetch getenv env
                (offline k1) (offline k2) (offline k3) w))
  = <[generated_filename test_tweet_id (clock env (S (ticks w))) :=
        json_dumps
          (empty_document test_tweet_id (clock env (S (S (ticks w)))))]>
      (files w).
Proof.
  intros Hopen Hwrite. unfold test_tweet_replies_fetch.
  rewrite get_tweet_replies_outcome.
  cbn [with_network network release offline fetch_outcome after_try
       is_RequestException]. cbv zeta.
  rewrite get_replies_with_metadata_outcome.
  cbn [with_network network release offline fetch_outcome after_try
       is_RequestException clock ticks]. cbv zeta.
  rewrite save_replies_to_file_unfold. cbv zeta.
  rewrite get_replies_with_metadata_outcome.
  cbn [with_network network release offline fetch_outcome after_try
       is_RequestException clock ticks tick can_open write_text
       save_path save_start]. cbv zeta.
  cbn [ticks tick] in Hopen, Hwrite |- *. rewrite Hopen.
  repeat match goal with
         | |- context [json_dumps (json_of_result ?w1 ?result)] =>
             change (json_of_result w1 result)
               with (empty_document test_tweet_id
                       (clock env (S (S (ticks w)))))
         end.
  rewrite Hwrite. split; reflexivity.
Qed.

Lemma X21_smoke_test_offline_witness :
  fst (test_tweet_replies_fetch getenv0 env_ab
         (offline Timeout) (offline Timeout) (offline Timeout) world0)
  = [PrintTesting (str "get_tweet_replies");
     PrintFetched 0;
     PrintTesting (str "get_replies_with_metadata");
     PrintMetadata (empty_document test_tweet_id (clock env_ab (ticks world0)));
     PrintTesting (str "save_replies_to_file");
     PrintSaved (generated_filename test_tweet_id
                   (clock env_ab (S (ticks world0))))]
  /\
  files (snd (test_tweet_replies_fetch getenv0 env_ab
                (offline Timeout) (offline Timeout) (offline Timeout) world0))
  = <[generated_filename test_tweet_id (clock env_ab (S (ticks world0))) :=
        json_dumps
          (empty_document test_tweet_id
             (clock env_ab (S (S (ticks world0)))))]>
      (files world0).
Proof.
  apply (X21_smoke_test_offline getenv0 env_ab Timeout Timeout Timeout world0);
    reflexivity.
Defined.

(** ** The saved text *)

Section AsciiOutput.

Local Open Scope N_scope.

Lemma ascii_only_app s t :
  ascii_only (s ++ t) = ascii_only s && ascii_only t.
Proof. apply forallb_app. Qed.

Lemma hex_digit_ascii n : n < 16 -> (hex_digit n <? 128) = true.
Proof.
  intros Hn. unfold hex_digit. apply N.ltb_lt.
  destruct (n <? 10); lia.
Qed.

Lemma hex4_ascii n : ascii_only (hex4 n) = true.
Proof.
  unfold hex4, ascii_only. cbn [forallb].
  rewrite !hex_digit_ascii by (apply N.mod_lt; lia). reflexivity.
Qed.

Lemma escape_char_ascii c : ascii_only (escape_char c) = true.
Proof.
  unfold escape_char.
  repeat match goal with
         | |- context [if ?b then _ else _] => destruct b eqn:?
         end;
    try reflexivity.
  - unfold ascii_only. cbn [forallb].
    apply andb_true_iff in Heqb6 as [_ H]. apply N.leb_le in H.
    replace (c <? 128) with true by (symmetry; apply N.ltb_lt; lia).
    reflexivity.
  - change (92 :: 117 :: hex4 c) with ([92; 117] ++ hex4 c).
    rewrite ascii_only_app, hex4_ascii. reflexivity.
  - change (92 :: 117 :: ?a ++ 92 :: 117 :: ?b)
      with ([92; 117] ++ a ++ [92; 117] ++ b).
    rewrite !ascii_only_app, !hex4_ascii. reflexivity.
Qed.

Lemma encode_str_ascii s : ascii_only (encode_str s) = true.
Proof.
  unfold encode_str. change (34 :: ?a ++ [34]) with ([34] ++ a ++ [34]).
  rewrite !ascii_only_app. cbn [ascii_only forallb N.ltb N.compare
    Pos.compare Pos.compare_cont andb].
  rewrite andb_true_r.
  induction s as [|c s IH]; [reflexivity|].
  cbn [escape]. rewrite ascii_only_app, escape_char_ascii, IH. reflexivity.
Qed.

Lemma newline_indent_ascii level : ascii_only (newline_indent level) = true.
Proof.
  unfold newline_indent, ascii_only. cbn [forallb].
  induction (4 * level)%nat; [reflexivity | assumption].
Qed.

Lemma number_chars_ascii s :
  forallb is_number_char s = true -> ascii_only s = true.
Proof.
  induction s as [|c s IH]; [reflexivity|]. cbn [forallb ascii_only].
  intros H. apply andb_true_iff in H as [Hc Hs].
  fold (ascii_only s). rewrite (IH Hs), andb_true_r.
  unfold is_number_char, is_digit in Hc.
  rewrite !orb_true_iff, andb_true_iff, !N.eqb_eq, !N.leb_le in Hc.
  apply N.ltb_lt. lia.
Qed.

Lemma float_ok_ascii r : float_ok r = true -> ascii_only r = true.
Proof.
  unfold float_ok. intros H.
  apply orb_true_iff in H as [H|H]; [apply orb_true_iff in H as [H|H]|].
  - apply andb_true_iff in H as [H _]. apply number_chars_ascii, H.
  - apply bool_decide_eq_true in H. subst r. reflexivity.
  - apply bool_decide_eq_true in H. subst r. reflexivity.
Qed.

Lemma Z_repr_ascii z : ascii_only (Z_repr z) = true.
Proof. apply number_chars_ascii, Z_repr_number_chars. Qed.

Lemma join_map_ascii {A} (item : A -> pystr) sep (l : list A) :
  Forall (fun x => ascii_only (item x) = true) l ->
  ascii_only sep = true ->
  ascii_only (join_map item sep l) = true.
Proof.
  intros Hl Hsep. induction Hl as [|x l Hx Hl IH]; [reflexivity|].
  destruct l as [|y l]; [exact Hx|].
  rewrite join_map_more, !ascii_only_app, Hx, Hsep, IH. reflexivity.
Qed.

(** Every well-formed document is written in ASCII. *)
Lemma json_encode_ascii v :
  json_ok v = true -> forall level, ascii_only (json_encode level v) = true.
Proof.
  induction v as [| b | z | r | s | l IHl | d IHd] using json_ind;
    intros Hok level.
  - reflexivity.
  - destruct b; reflexivity.
  - apply Z_repr_ascii.
  - apply float_ok_ascii, Hok.
  - apply encode_str_ascii.
  - destruct l as [|x l]; [reflexivity|].
    change (json_encode level (JList (x :: l)))
      with ([91] ++ newline_indent (S level) ++
            join_map (json_encode (S level))
              (44 :: newline_indent (S level)) (x :: l) ++
            newline_indent level ++ [93]).
    rewrite !ascii_only_app, !newline_indent_ascii, join_map_ascii;
      [reflexivity| |].
    + cbn [json_ok] in Hok. rewrite forallb_forall in Hok.
      rewrite Forall_forall in IHl |- *. intros y Hy.
      apply IHl; [exact Hy|]. apply Hok, list_elem_of_In, Hy.
    + change (44 :: ?a) with ([44] ++ a).
      rewrite ascii_only_app, newline_indent_ascii. reflexivity.
  - destruct d as [|kv d]; [reflexivity|].
    change (json_encode level (JDict (kv :: d)))
      with ([123] ++ newline_indent (S level) ++
            join_map (member_text level)
              (44 :: newline_indent (S level)) (kv :: d) ++
            newline_indent level ++ [125]).
    rewrite !ascii_only_app, !newline_indent_ascii, join_map_ascii;
      [reflexivity| |].
    + cbn [json_ok] in Hok. apply andb_true_iff in Hok as [Hok _].
      rewrite forallb_forall in Hok.
      rewrite Forall_forall in IHd |- *. intros [k x] Hkx.
      specialize (IHd _ Hkx). specialize (Hok _ (proj1 (list_elem_of_In _ _) Hkx)).
      cbn [snd] in IHd. apply andb_true_iff in Hok as [_ Hx].
      unfold member_text. change [58; 32] with ([58] ++ [32]).
      rewrite !ascii_only_app, encode_str_ascii, (IHd Hx). reflexivity.
    + change (44 :: ?a) with ([44] ++ a).
      rewrite ascii_only_app, newline_indent_ascii. reflexivity.
Qed.

End AsciiOutput.

(** X22: the saved file is plain ASCII, whatever characters the post id and
    the replies hold: json.dump is called with its default ensure_ascii, so
    every character outside the printable ASCII range is written as an
    escape. *)
Theorem X22_saved_text_is_ascii env tweet filename max_replies w path w2 :
  str_ok tweet = true ->
  answers_ok env tweet w ->
  save_replies_to_file env tweet filename max_replies w = (Return path, w2) ->
  exists content,
    files w2 !! path = Some content /\ ascii_only content = true.
Proof.
  intros Htweet Hok. rewrite save_replies_to_file_unfold. cbv zeta.
  assert (Hok0 : answers_ok env tweet (save_start filename w))
    by (destruct filename; exact Hok).
  pose proof (fetch_result_ok env tweet max_replies (save_start filename w))
    as Hdoc.
  destruct (get_replies_with_metadata env tweet max_replies
              (save_start filename w)) as [[result|e] w1]; [|discriminate].
  specialize (Hdoc result w1 Htweet Hok0 eq_refl).
  destruct (can_open env _); [|discriminate].
  destruct (write_text env _ _); [|discriminate].
  intros [= <- <-]. cbn [files].
  eexists. split; [apply lookup_insert_eq|].
  apply json_encode_ascii, Hdoc.
Qed.

Lemma X22_saved_text_is_ascii_witness :
  exists content,
    files (snd (save_replies_to_file env_accent (str "1") None 100 world0))
      !! str "replies_to_1_20250321_120005.json" = Some content /\
    ascii_only content = true.
Proof.
  apply (X22_saved_text_is_ascii env_accent (str "1") None 100 world0
           (str "replies_to_1_20250321_120005.json")
           (snd (save_replies_to_file env_accent (str "1") None 100 world0))).
  - reflexivity.
  - intros r data [= <-] [= <-]. reflexivity.
  - reflexivity.
Defined.
